(** * LUKS + TPM disk-encryption hardware manager

    A shallow embedding of
    [ironic_python_agent/hardware_managers/luks_tpm.py] and
    [ironic_python_agent/hardware_managers/luks/luks_utils.py],
    and the properties of the orchestration engine proved over it.

    Python functions become computations in a small state-and-exception
    monad.  The state holds the local variables of the running function (so
    that reading an unbound local is observable) and the chronological trace
    of every effectful call that leaves the two modules: external commands,
    queries of [disk_utils], calls into the TPM module, and log records.
    What those calls answer is given by an environment [Env]. *)

From Stdlib Require Import ZArith Ascii DecimalString DecimalPos.
From Stdlib Require Import Floats.SpecFloat.
From stdpp Require Import gmap strings list sorting.

Local Open Scope Z_scope.

(** ** Python values, exceptions and results *)

Inductive pyval :=
| PyNone
| PyBool (b : bool)
| PyInt (z : Z)
| PyStr (s : string)
| PyFunction (qualname : string).

(** The exceptions that occur; all of them are caught by
    [except Exception]. *)
Inductive exn :=
| ProcessExecutionError (cmd : list string)
| InstanceDeployFailure (msg : string)
| UnboundLocalError (name : string)
| KeyError (key : string)
| IndexError
| ValueError
| ZeroDivisionError
| OverflowError
| TypeError
| OtherError (msg : string).

Inductive res (A : Type) :=
| Ok (a : A)
| Raise (e : exn).
Arguments Ok {A} a.
Arguments Raise {A} e.

Definition is_ok {A} (r : res A) : bool :=
  match r with Ok _ => true | Raise _ => false end.

(** Truth value testing: [None], [False], zero and the empty string are
    false; a function object is always true. *)
Definition py_truthy (v : pyval) : bool :=
  match v with
  | PyNone => false
  | PyBool b => b
  | PyInt z => negb (z =? 0)
  | PyStr s => negb (String.eqb s "")
  | PyFunction _ => true
  end.

(** [a and b]: the value of [a] when it is false, the value of [b]
    otherwise (the operands here are names, their evaluation has no
    effect). *)
Definition py_and (a b : pyval) : pyval :=
  if py_truthy a then b else a.

(** ** Strings *)

Definition py_str_int (z : Z) : string :=
  NilEmpty.string_of_int (Z.to_int z).

Definition py_str (v : pyval) : string :=
  match v with
  | PyNone => "None"
  | PyBool true => "True"
  | PyBool false => "False"
  | PyInt z => py_str_int z
  | PyStr s => s
  | PyFunction q => "<function " +:+ q +:+ ">"
  end.

Definition ascii_in (c : ascii) (codes : list N) : bool :=
  existsb (N.eqb (N_of_ascii c)) codes.

(** Line boundaries of [str.splitlines] in the ASCII range: LF, CR (and
    the pair CR LF), VT, FF, FS, GS, RS. *)
Definition is_linebreak (c : ascii) : bool :=
  ascii_in c [10; 13; 11; 12; 28; 29; 30]%N.

Definition is_cr (c : ascii) : bool := (N_of_ascii c =? 13)%N.
Definition is_lf (c : ascii) : bool := (N_of_ascii c =? 10)%N.

Fixpoint splitlines_from (after_cr : bool) (s : string) : list string :=
  match s with
  | EmptyString => []
  | String c s' =>
      if after_cr && is_lf c then splitlines_from false s'
      else if is_linebreak c then EmptyString :: splitlines_from (is_cr c) s'
      else match splitlines_from false s' with
           | [] => [String c EmptyString]
           | l :: ls => String c l :: ls
           end
  end.

(** [s.splitlines()] *)
Definition splitlines (s : string) : list string := splitlines_from false s.

(** [re.split(" ", s)]: every single space separates, so consecutive
    spaces give empty fields, and the result is never empty. *)
Fixpoint re_split_space (s : string) : list string :=
  match s with
  | EmptyString => [EmptyString]
  | String c s' =>
      if Ascii.eqb c " " then EmptyString :: re_split_space s'
      else match re_split_space s' with
           | [] => [String c EmptyString]
           | w :: ws => String c w :: ws
           end
  end.

(** [l[i]] for a literal index [i >= 0]. *)
Definition py_index {A} (l : list A) (i : nat) : res A :=
  match l !! i with
  | Some x => Ok x
  | None => Raise IndexError
  end.

(** [int(s)] on a string: the white space [int] skips at both ends (tab,
    LF, VT, FF, CR and space), then an optional sign and decimal digits,
    where single underscores may separate digits.  Anything else is a
    [ValueError], and so is a string of more than [max_str_digits] digits.
    [str] of an integer of more than [max_str_digits] digits is a
    [ValueError] as well. *)
Definition is_space (c : ascii) : bool :=
  ascii_in c [9; 10; 11; 12; 13; 32]%N.

Definition max_str_digits : nat := 4300.

Definition is_digit (c : ascii) : bool :=
  ((48 <=? N_of_ascii c) && (N_of_ascii c <=? 57))%N.

Definition digit_val (c : ascii) : Z := Z.of_N (N_of_ascii c) - 48.

Fixpoint lstrip (s : string) : string :=
  match s with
  | EmptyString => EmptyString
  | String c s' => if is_space c then lstrip s' else s
  end.

Fixpoint rstrip (s : string) : string :=
  match s with
  | EmptyString => EmptyString
  | String c s' =>
      match rstrip s' with
      | EmptyString => if is_space c then EmptyString else String c EmptyString
      | r => String c r
      end
  end.

Fixpoint parse_digits (acc : Z) (after_digit : bool) (s : string) : option Z :=
  match s with
  | EmptyString => if after_digit then Some acc else None
  | String c s' =>
      if is_digit c then parse_digits (10 * acc + digit_val c) true s'
      else if Ascii.eqb c "_" && after_digit then parse_digits acc false s'
      else None
  end.

(** The number of decimal digits in a string. *)
Fixpoint digit_count (s : string) : nat :=
  match s with
  | EmptyString => O
  | String c s' => if is_digit c then S (digit_count s') else digit_count s'
  end.

Definition py_int_of_str (s : string) : res Z :=
  let parsed :=
    match rstrip (lstrip s) with
    | String "+" r => parse_digits 0 false r
    | String "-" r => Z.opp <$> parse_digits 0 false r
    | r => parse_digits 0 false r
    end in
  match parsed with
  | Some z =>
      if (max_str_digits <? digit_count s)%nat then Raise ValueError else Ok z
  | None => Raise ValueError
  end.

(** [str(z)] *)
Definition py_str_of_int (z : Z) : res string :=
  let s := py_str_int z in
  if (max_str_digits <? digit_count s)%nat then Raise ValueError else Ok s.

(** ** Dictionaries *)

(** A [dict] with string keys, as built and updated by the code. *)
Abbreviation dict := (gmap string pyval).

Definition dict_get (d : dict) (k : string) : res pyval :=
  match d !! k with
  | Some v => Ok v
  | None => Raise (KeyError k)
  end.

(** [d[k] = v] on a value that is a [dict] or [None]. *)
Definition dict_setitem (d : option dict) (k : string) (v : pyval) : res dict :=
  match d with
  | Some m => Ok (<[k := v]> m)
  | None => Raise TypeError
  end.

(** Truth value of a variable holding [None] or a [dict]. *)
Definition dict_truthy (d : option dict) : bool :=
  match d with
  | None => false
  | Some m => negb (bool_decide (m = ∅))
  end.

(** [int(v)] *)
Definition py_int (v : pyval) : res Z :=
  match v with
  | PyInt z => Ok z
  | PyBool b => Ok (if b then 1 else 0)
  | PyStr s => py_int_of_str s
  | PyNone | PyFunction _ => Raise TypeError
  end.

(** ** Observable events, state and environment *)

Inductive log_level := LogDebug | LogError.

(** The argument given to a log call after the format string. *)
Inductive log_args :=
| LogNoArgs
| LogDict (items : list (string * pyval))
| LogSet (items : list pyval).

Inductive event :=
| EvExecute (cmd : list string)
| EvListPartitions (device : string)
| EvGetDevSectorSize (device : pyval)
| EvCheckAndGenerateKeyFile
| EvUnsealTpmKey
| EvLog (level : log_level) (fmt : string) (args : log_args)
| EvOriginalExceptionDropped (e : exn).

Record state := State {
  locals : gmap string pyval;
  trace : list event
}.

(** One entry of [disk_utils.list_partitions]: the code reads only the
    integer field ['number']. *)
Record partition := Partition { number : Z }.

(** The answers of everything outside the two modules.  [utils.execute]
    returns the pair (stdout, stderr) or raises. *)
Record Env := {
  execute_result : list string -> res (string * string);
  list_partitions_result : string -> res (list partition);
  get_dev_sector_size_result : pyval -> res N;
  partition_index_to_path_of : string -> Z -> string;
  check_and_generate_key_file_result : res pyval;
  unseal_tpm_key_result : res pyval;
  check_tpm_compatibility_result : res pyval
}.

(** [hardware.HardwareSupport] *)
Inductive HardwareSupport := NONE | GENERIC | MAINLINE | SERVICE_PROVIDER.

(** ** The monad *)

Definition M (A : Type) : Type := state -> res A * state.

#[global] Instance M_ret : MRet M := fun A a st => (Ok a, st).
#[global] Instance M_bind : MBind M := fun A B f m st =>
  match m st with
  | (Ok a, st') => f a st'
  | (Raise e, st') => (Raise e, st')
  end.

Definition raise {A} (e : exn) : M A := fun st => (Raise e, st).

Definition lift {A} (r : res A) : M A := fun st => (r, st).

Definition emit (ev : event) : M unit :=
  fun st => (Ok tt, State (locals st) (trace st ++ [ev])).

(** Assignment to and use of a local variable of the running function. *)
Definition set_local (x : string) (v : pyval) : M unit :=
  fun st => (Ok tt, State (<[x := v]> (locals st)) (trace st)).

Definition get_local (x : string) : M pyval :=
  fun st => match locals st !! x with
            | Some v => (Ok v, st)
            | None => (Raise (UnboundLocalError x), st)
            end.

(** A function body runs in a frame of its own. *)
Definition call {A} (body : M A) : M A :=
  fun st => let '(r, st') := body (State ∅ (trace st)) in
            (r, State (locals st) (trace st')).

(** [try: body / except Exception: handler] *)
Definition try_except {A} (body : M A) (handler : exn -> M A) : M A :=
  fun st => match body st with
            | (Raise e, st') => handler e st'
            | r => r
            end.

(** [with excutils.save_and_reraise_exception(): block] inside a handler
    of [orig]: when the block completes, [orig] is raised again; when the
    block itself raises, that new exception goes on and [orig] is dropped
    (and reported as dropped). *)
Definition save_and_reraise_exception {A} (orig : exn) (block : M unit) : M A :=
  fun st => match block st with
            | (Ok _, st') => (Raise orig, st')
            | (Raise e, st') =>
                (Raise e, State (locals st')
                            (trace st' ++ [EvOriginalExceptionDropped orig]))
            end.

(** [for x in l: body], threading the variables the body assigns. *)
Fixpoint for_each {A S} (l : list A) (body : S -> A -> M S) (s : S) : M S :=
  match l with
  | [] => mret s
  | x :: l' => s' ← body s x; for_each l' body s'
  end.

(** A log call records the format string and its argument; a record that
    cannot be formatted is reported by the logging module itself and
    never raises into the caller. *)
Definition log (level : log_level) (fmt : string) (args : log_args) : M unit :=
  emit (EvLog level fmt args).

Definition run {A} (m : M A) : res A * list event :=
  let '(r, st) := m (State ∅ []) in (r, trace st).

(** ** Calls that leave the two modules *)

Section Code.
Context (env : Env).

(** [utils.execute]: every argument is converted with [str]. *)
Definition execute (cmd : list pyval) : M (string * string) :=
  let argv := py_str <$> cmd in
  emit (EvExecute argv);;
  lift (execute_result env argv).

Definition list_partitions (device : string) : M (list partition) :=
  emit (EvListPartitions device);;
  lift (list_partitions_result env device).

Definition get_dev_sector_size (device : pyval) : M Z :=
  emit (EvGetDevSectorSize device);;
  n ← lift (get_dev_sector_size_result env device);
  mret (Z.of_N n).

(** A string computation of [disk_utils]: it formats the device name and
    the index, and runs no command. *)
Definition partition_index_to_path (device : string) (index : Z) : M string :=
  mret (partition_index_to_path_of env device index).

Definition check_and_generate_key_file : M pyval :=
  emit EvCheckAndGenerateKeyFile;;
  lift (check_and_generate_key_file_result env).

Definition unseal_tpm_key : M pyval :=
  emit EvUnsealTpmKey;;
  lift (unseal_tpm_key_result env).

(** ** luks_utils.py *)

Definition check_luks_compatibility : M pyval := mret (PyBool true).

Definition luks_encrypt_devcie_partition (key_file partition : pyval) : M unit :=
  try_except
    (execute [PyStr "cryptsetup"; PyStr "encrypt"; PyStr "--type";
              PyStr "luks2"; PyStr "--key-file"; key_file; partition];;
     execute [PyStr "cryptsetup"; PyStr "luksAddKey"; PyStr "--type";
              PyStr "luks2"; PyStr "--key-file"; key_file; partition;
              key_file];;
     mret ())
    (λ e, save_and_reraise_exception e
            (log LogError "ERROR: Encryption has failed for %(partition)s"
               (LogSet [PyStr "partition"; partition]))).

Definition luks_re_encrypt_partition (key_file partition : pyval) : M unit :=
  try_except
    (execute [PyStr "cryptsetup"; PyStr "reencrypt"; PyStr "--encrypt";
              PyStr "--type"; PyStr "luks2"; PyStr "--reduce-device-size";
              PyStr "32M"; PyStr "--key-file"; key_file; partition];;
     execute [PyStr "cryptsetup"; PyStr "luksAddKey"; PyStr "--type";
              PyStr "luks2"; PyStr "--key-file"; key_file; partition;
              key_file];;
     mret ())
    (λ e, save_and_reraise_exception e
            (log LogError "ERROR: Re-encryption has failed for %(partition)s"
               (LogSet [PyStr "partition"; partition]))).

Definition luks_open_partition (key_file partition : pyval)
    (map_target : string) : M string :=
  try_except
    (execute [PyStr "cryptsetup"; PyStr "open"; PyStr "--type";
              PyStr "luks2"; PyStr "--key-file"; key_file; partition;
              PyStr map_target];;
     mret ())
    (λ e, save_and_reraise_exception e
            (log LogError "ERROR: Failed to open encrypted device %(partition)s"
               (LogDict [("partition", partition)])));;
  mret ("/dev/mapper/" +:+ map_target).

(** ** luks_tpm.py *)

(** The two names are bound to the function objects themselves: neither
    check is called. *)
Definition _detect_dependency : M pyval :=
  let luks_compatibility := PyFunction "luks.check_luks_compatibility" in
  let tpm_conpatibility := PyFunction "tpm.check_tpm_compatibility" in
  mret (py_and luks_compatibility tpm_conpatibility).

(** [int(32 * 1024 * 1024 / sector_size)]: true division, then
    truncation toward zero.  The quotient of 2^25 by a positive integer,
    when it is not an integer, lies further from the next integer than
    the rounding error of a double, so the result is the integer
    quotient ([luks_header_sectors_float] below replays the computation
    on IEEE doubles). *)
Definition luks_header_sectors (sector_size : Z) : res Z :=
  if sector_size =? 0 then Raise ZeroDivisionError
  else Ok (Z.quot (32 * 1024 * 1024) sector_size).

Definition _grow_part (partition_info : dict) : M unit :=
  call (try_except
    (idx_num ← lift (dict_get partition_info "index_number");
     device ← lift (dict_get partition_info "device");
     sector_size ← get_dev_sector_size device;
     luks_header_sector_size ← lift (luks_header_sectors sector_size);
     part_info ← execute [PyStr "sgdisk"; PyStr "-i"; idx_num; device];
     let part_info_lines := splitlines part_info.1 in
     line2 ← lift (py_index part_info_lines 2);
     field ← lift (py_index (re_split_space line2) 2);
     set_local "first_sector" (PyStr field);;
     line3 ← lift (py_index part_info_lines 3);
     field ← lift (py_index (re_split_space line3) 2);
     set_local "last_sector" (PyStr field);;
     last_sector ← get_local "last_sector";
     n ← lift (py_int last_sector);
     new_last ← lift (py_str_of_int (n + luks_header_sector_size));
     set_local "last_sector" (PyStr new_last);;
     first_sector ← get_local "first_sector";
     last_sector ← get_local "last_sector";
     execute [PyStr "sgdisk"; PyStr "-e"; PyStr "-d"; idx_num; PyStr "-n";
              PyStr (py_str idx_num +:+ ":" +:+ py_str first_sector
                     +:+ ":" +:+ py_str last_sector);
              device];;
     mret ())
    (λ e, save_and_reraise_exception e
            (partition ← lift (dict_get partition_info "partition_path");
             first ← get_local "first_sector";
             last ← get_local "last_sector";
             log LogError
               "ERROR: Can't grow %(partition)s, first sector:%(first)s , last sector: %(last)"
               (LogDict [("partition", partition); ("first", first);
                         ("last", last)])))).

Definition _get_partition_parent_device_name (path_to_partition : pyval)
    : M string :=
  let parent_device := EmptyString in
  try_except
    (execute [PyStr "lsblk"; PyStr "-no"; PyStr "PKNAME"; path_to_partition];;
     mret ())
    (λ e, save_and_reraise_exception e
            (log LogError
               "ERROR: Can't determine the parent block device of%(partition)s"
               (LogDict [("partition", path_to_partition)])));;
  mret parent_device.

Definition root_typecode : string := "4F68BCE3-E8CD-4DB1-96E7-FBCAF984B709".

(** One iteration of the scan; [root_partition_info] is the variable the
    loop may overwrite. *)
Definition scan_partition (disk : string) (root_partition_info : option dict)
    (part : partition) : M (option dict) :=
  let p_num := number part in
  lines ← execute [PyStr "sgdisk"; PyStr "--info"; PyInt p_num; PyStr disk];
  line ← lift (py_index (splitlines lines.1) 0);
  typecode ← lift (py_index (re_split_space line) 3);
  if String.eqb typecode root_typecode then
    partition_path ← partition_index_to_path disk p_num;
    mret (Some ({[ "partition_path" := PyStr partition_path;
                   "index_number" := PyInt p_num ]} : dict))
  else mret root_partition_info.

(** On this path a [None] cannot be subscripted. *)
Definition subscript (d : option dict) (k : string) : res pyval :=
  match d with
  | Some m => dict_get m k
  | None => Raise TypeError
  end.

(** The handler always raises, so the final [return root_partition_info]
    is reached only from the end of the [try] body, with the value the
    variable has there. *)
Definition detect_root_partition_on_device (disk : string) : M (option dict) :=
  partitions ← list_partitions disk;
  try_except
    (root_partition_info ← for_each partitions (scan_partition disk) None;
     (if negb (dict_truthy root_partition_info)
      then raise (InstanceDeployFailure "ERROR: Can't find typecode match!")
      else mret ());;
     partition_path ← lift (subscript root_partition_info "partition_path");
     execute [PyStr "ln"; PyStr "-s"; partition_path;
              PyStr "/tmp/root_partition"];;
     mret root_partition_info)
    (λ e, save_and_reraise_exception e
            (log LogError "ERROR: Can't find root partition on %(device)s"
               (LogDict [("device", PyStr disk)]))).

Definition evaluate_hardware_support : M HardwareSupport :=
  supported ← _detect_dependency;
  if py_truthy supported then
    log LogDebug "DEBUG: TPM+LUKS based encryption is supported!" LogNoArgs;;
    mret MAINLINE
  else
    log LogDebug "DEBUG: TPM+LUKS based encryption is not supported!" LogNoArgs;;
    mret NONE.

Definition whole_disk_image_encryption (device : string) : M unit :=
  root_partition_info ← detect_root_partition_on_device device;
  root_partition_info ←
    lift (dict_setitem root_partition_info "device" (PyStr device));
  _grow_part root_partition_info;;
  key_file ← check_and_generate_key_file;
  partition_path ← lift (dict_get root_partition_info "partition_path");
  luks_re_encrypt_partition key_file partition_path.

Definition config_drive_encryption (conf_part : pyval) : M unit :=
  key_file ← check_and_generate_key_file;
  luks_re_encrypt_partition key_file conf_part.

Definition config_drive_open (conf_part : pyval) : M string :=
  key_file ← unseal_tpm_key;
  luks_open_partition key_file conf_part "config-2".

(** The three partition-image methods log and fall off the end of the
    body, which returns [None]. *)
Definition partition_image_root_partition_encryption (partition : pyval)
    : M pyval :=
  log LogError "ERROR: Partition image encryption is not yet implementd!"
    LogNoArgs;;
  mret PyNone.

Definition partition_image_initrd_customization (partition : pyval)
    : M pyval :=
  log LogError "ERROR: Partition image encryption is not yet implementd!"
    LogNoArgs;;
  mret PyNone.

Definition partition_image_open_root_partition (partition : pyval)
    : M pyval :=
  log LogError "ERROR: Partition image encryption is not yet implementd!"
    LogNoArgs;;
  mret PyNone.

End Code.

(** ** The header computation on IEEE doubles *)

(** [float(z)], [a / b] on binary64 and [int(f)], over the specification
    of floating-point numbers of the standard library. *)
Definition float64_of_Z (z : Z) : spec_float := binary_normalize 53 1024 z 0 false.

Definition float64_div : spec_float -> spec_float -> spec_float := SFdiv 53 1024.

Definition int_of_float64 (f : spec_float) : res Z :=
  match f with
  | S754_zero _ => Ok 0
  | S754_finite s m e =>
      let magnitude :=
        if 0 <=? e then Z.pos m * 2 ^ e else Z.quot (Z.pos m) (2 ^ (- e)) in
      Ok (if s then - magnitude else magnitude)
  | S754_infinity _ => Raise OverflowError
  | S754_nan => Raise ValueError
  end.

Definition luks_header_sectors_float (sector_size : Z) : res Z :=
  if sector_size =? 0 then Raise ZeroDivisionError
  else int_of_float64
         (float64_div (float64_of_Z (32 * 1024 * 1024)) (float64_of_Z sector_size)).

Definition same_sectors (a b : res Z) : bool :=
  match a, b with
  | Ok x, Ok y => x =? y
  | _, _ => false
  end.

(** The two computations agree on [count] consecutive sector sizes
    starting at [from]. *)
Fixpoint header_models_agree (count : nat) (from : Z) : bool :=
  match count with
  | O => true
  | S count' =>
      same_sectors (luks_header_sectors_float from) (luks_header_sectors from)
      && header_models_agree count' (from + 1)
  end.


(** * Vocabulary of the statements *)

#[global] Instance res_ret : MRet res := λ A a, Ok a.
#[global] Instance res_bind : MBind res := λ A B f r,
  match r with
  | Ok a => f a
  | Raise e => Raise e
  end.

(** The state after more events have been recorded. *)
Definition record_events (st : state) (evs : list event) : state :=
  State (locals st) (trace st ++ evs).

Definition not_implemented_record : event :=
  EvLog LogError "ERROR: Partition image encryption is not yet implementd!"
    LogNoArgs.

(** Ceiling of 32 MiB over the sector size, as the specification words
    the header computation. *)
Definition header_sectors_ceiling (sector_size : Z) : Z :=
  (32 * 1024 * 1024 + sector_size - 1) / sector_size.

(** The number a sequence of decimal digits denotes after the digits
    already read, and the printed form of an integer parsed back. *)
Fixpoint uint_value (acc : Z) (d : Decimal.uint) : Z :=
  match d with
  | Decimal.Nil => acc
  | Decimal.D0 l => uint_value (10 * acc + 0) l
  | Decimal.D1 l => uint_value (10 * acc + 1) l
  | Decimal.D2 l => uint_value (10 * acc + 2) l
  | Decimal.D3 l => uint_value (10 * acc + 3) l
  | Decimal.D4 l => uint_value (10 * acc + 4) l
  | Decimal.D5 l => uint_value (10 * acc + 5) l
  | Decimal.D6 l => uint_value (10 * acc + 6) l
  | Decimal.D7 l => uint_value (10 * acc + 7) l
  | Decimal.D8 l => uint_value (10 * acc + 8) l
  | Decimal.D9 l => uint_value (10 * acc + 9) l
  end.

(** *** Command lines *)

Definition info_cmd (disk : string) (p : partition) : list string :=
  ["sgdisk"; "--info"; py_str_int (number p); disk].

Definition link_cmd (partition_path : string) : list string :=
  ["ln"; "-s"; partition_path; "/tmp/root_partition"].

Definition geometry_cmd (idx_num device : pyval) : list string :=
  ["sgdisk"; "-i"; py_str idx_num; py_str device].

(** Delete entry [idx_num] and create it again from [first] to [last]. *)
Definition rewrite_cmd (idx_num : pyval) (first last : string)
    (device : pyval) : list string :=
  ["sgdisk"; "-e"; "-d"; py_str idx_num; "-n";
   py_str idx_num +:+ ":" +:+ first +:+ ":" +:+ last; py_str device].

Definition encrypt_cmd (key_file partition : pyval) : list string :=
  ["cryptsetup"; "encrypt"; "--type"; "luks2"; "--key-file";
   py_str key_file; py_str partition].

Definition reencrypt_cmd (key_file partition : pyval) : list string :=
  ["cryptsetup"; "reencrypt"; "--encrypt"; "--type"; "luks2";
   "--reduce-device-size"; "32M"; "--key-file"; py_str key_file;
   py_str partition].

Definition add_key_cmd (key_file partition : pyval) : list string :=
  ["cryptsetup"; "luksAddKey"; "--type"; "luks2"; "--key-file";
   py_str key_file; py_str partition; py_str key_file].

Definition open_cmd (key_file partition : pyval) (map_target : string)
    : list string :=
  ["cryptsetup"; "open"; "--type"; "luks2"; "--key-file";
   py_str key_file; py_str partition; map_target].

(** *** Classes of events *)

Definition is_add_key_call (ev : event) : bool :=
  match ev with
  | EvExecute (prog :: subcommand :: _) =>
      String.eqb prog "cryptsetup" && String.eqb subcommand "luksAddKey"
  | _ => false
  end.

(** Everything [_grow_part] does outside the module: the sector-size
    lookup and any [sgdisk] call other than the type-code query. *)
Definition is_geometry_call (ev : event) : bool :=
  match ev with
  | EvGetDevSectorSize _ => true
  | EvExecute (prog :: option :: _) =>
      String.eqb prog "sgdisk" && negb (String.eqb option "--info")
  | _ => false
  end.

(** Key generation and any [cryptsetup] call. *)
Definition is_encryption_call (ev : event) : bool :=
  match ev with
  | EvCheckAndGenerateKeyFile => true
  | EvExecute (prog :: _) => String.eqb prog "cryptsetup"
  | _ => false
  end.

(** Neither a geometry call nor an encryption call. *)
Definition quiet (ev : event) : bool :=
  negb (is_geometry_call ev) && negb (is_encryption_call ev).

Definition lookup_failure_record (disk : string) : event :=
  EvLog LogError "ERROR: Can't find root partition on %(device)s"
    (LogDict [("device", PyStr disk)]).

Definition root_info (partition_path : string) (p : partition) : dict :=
  {[ "partition_path" := PyStr partition_path;
     "index_number" := PyInt (number p) ]}.

Definition open_failure_record (partition : pyval) : event :=
  EvLog LogError "ERROR: Failed to open encrypted device %(partition)s"
    (LogDict [("partition", partition)]).

Definition grow_failure_record (partition first last : pyval) : event :=
  EvLog LogError
    "ERROR: Can't grow %(partition)s, first sector:%(first)s , last sector: %(last)"
    (LogDict [("partition", partition); ("first", first); ("last", last)]).

(** What the handler of [_grow_part] does with the error [orig], given
    the value of ['partition_path'] in the dictionary and the values of
    the locals [first_sector] and [last_sector] (absent when unbound): the
    error that leaves the function and the events the handler records. *)
Definition grow_handler_outcome (partition first last : option pyval)
    (orig : exn) : exn * list event :=
  match partition, first, last with
  | None, _, _ => (KeyError "partition_path", [EvOriginalExceptionDropped orig])
  | Some _, None, _ =>
      (UnboundLocalError "first_sector", [EvOriginalExceptionDropped orig])
  | Some _, Some _, None =>
      (UnboundLocalError "last_sector", [EvOriginalExceptionDropped orig])
  | Some p, Some f, Some l => (orig, [grow_failure_record p f l])
  end.

Definition grow_failure (partition first last : option pyval) (orig : exn)
    (st : state) (evs : list event) : res unit * state :=
  let '(e, final) := grow_handler_outcome partition first last orig in
  (Raise e, record_events st (evs ++ final)).

Section Vocabulary.
Context (env : Env).

(** The missing [tpm_utils.check_tpm_compatibility], as the environment
    answers it. *)
Definition check_tpm_compatibility : M pyval :=
  lift (check_tpm_compatibility_result env).

(** The claimed behaviour of [evaluate_hardware_support], in the words of
    the specification: both checks are consulted, and support is declared
    when both report true. *)
Definition evaluate_hardware_support_claimed : M HardwareSupport :=
  luks_compatibility ← check_luks_compatibility;
  tpm_compatibility ← check_tpm_compatibility;
  if py_truthy (py_and luks_compatibility tpm_compatibility)
  then mret MAINLINE else mret NONE.

(** The type code the scan reads for a partition. *)
Definition typecode_of (disk : string) (p : partition) : res string :=
  out ← execute_result env (info_cmd disk p);
  line ← py_index (splitlines out.1) 0;
  py_index (re_split_space line) 3.

Definition is_root (disk : string) (p : partition) : bool :=
  match typecode_of disk p with
  | Ok typecode => String.eqb typecode root_typecode
  | Raise _ => false
  end.

Definition path_of (disk : string) (p : partition) : string :=
  partition_index_to_path_of env disk (number p).

(** What one iteration of the scan answers, and what the whole scan
    answers and records, as functions of the environment. *)
Definition scan_outcome (disk : string) (root_partition_info : option dict)
    (p : partition) : res (option dict) :=
  typecode ← typecode_of disk p;
  if String.eqb typecode root_typecode
  then Ok (Some (root_info (path_of disk p) p))
  else Ok root_partition_info.

Fixpoint scan_fold (disk : string) (parts : list partition)
    (root_partition_info : option dict) : res (option dict) * list event :=
  match parts with
  | [] => (Ok root_partition_info, [])
  | p :: parts' =>
      match scan_outcome disk root_partition_info p with
      | Ok info =>
          let '(r, evs) := scan_fold disk parts' info in
          (r, EvExecute (info_cmd disk p) :: evs)
      | Raise e => (Raise e, [EvExecute (info_cmd disk p)])
      end
  end.

(** The choice the loop makes at one partition whose type code could be
    read. *)
Definition scan_choice (disk : string) (root_partition_info : option dict)
    (p : partition) : option dict :=
  if is_root disk p then Some (root_info (path_of disk p) p)
  else root_partition_info.

Definition info_events (disk : string) (parts : list partition) : list event :=
  (λ p, EvExecute (info_cmd disk p)) <$> parts.

(** The sector value the code reads on a line of the geometry query:
    third field of the line. *)
Definition sector_field (out : string) (line : nat) : res string :=
  l ← py_index (splitlines out) line;
  py_index (re_split_space l) 2.

End Vocabulary.

(** A machine whose TPM check reports false. *)
Definition env_without_tpm : Env := {|
  execute_result := λ cmd, Raise (ProcessExecutionError cmd);
  list_partitions_result := λ _, Ok [];
  get_dev_sector_size_result := λ _, Ok 512%N;
  partition_index_to_path_of := λ device index, device +:+ py_str_int index;
  check_and_generate_key_file_result := Raise (OtherError "no TPM");
  unseal_tpm_key_result := Raise (OtherError "no TPM");
  check_tpm_compatibility_result := Ok (PyBool false)
|}.

(** *** A concrete disk *)

Definition guid_efi : string := "C12A7328-F81F-11D2-BA4B-00A0C93EC93B".
Definition guid_linux : string := "0FC63DAF-8483-4772-8E79-3D69D8477DE4".

Definition newline : string := String (ascii_of_N 10) EmptyString.

(** The text [sgdisk --info] prints for one partition. *)
Definition sgdisk_info_text (typecode first last : string) : string :=
  "Partition GUID code: " +:+ typecode +:+ " (partition type)" +:+ newline
  +:+ "Partition unique GUID: 8C3A5DE1-6F0B-4A52-9CE4-2D1B7A90E344" +:+ newline
  +:+ "First sector: " +:+ first +:+ " (at 513.0 MiB)" +:+ newline
  +:+ "Last sector: " +:+ last +:+ " (at 20.5 GiB)" +:+ newline
  +:+ "Partition size: 41943040 sectors (20.0 GiB)" +:+ newline
  +:+ "Attribute flags: 0000000000000000" +:+ newline
  +:+ "Partition name: 'root'" +:+ newline.

Record disk_entry := DiskEntry {
  de_number : Z;
  de_typecode : string;
  de_first : string;
  de_last : string
}.

(** A machine with one disk holding [entries]: [sgdisk] answers the two
    queries from the entries, every other command succeeds silently,
    except the commands that [fails] makes fail. *)
Definition scenario_env (entries : list disk_entry)
    (fails : list string → option exn) (sector_size : res N) : Env := {|
  execute_result := λ cmd,
    match fails cmd with
    | Some e => Raise e
    | None =>
        match cmd with
        | [prog; option; idx; _] =>
            if String.eqb prog "sgdisk"
               && (String.eqb option "--info" || String.eqb option "-i")
            then
              match List.find
                      (λ d, String.eqb (py_str_int (de_number d)) idx)
                      entries with
              | Some d =>
                  Ok (sgdisk_info_text (de_typecode d) (de_first d) (de_last d),
                      EmptyString)
              | None => Raise (ProcessExecutionError cmd)
              end
            else Ok (EmptyString, EmptyString)
        | _ => Ok (EmptyString, EmptyString)
        end
    end;
  list_partitions_result := λ _,
    Ok ((λ d, Partition (de_number d)) <$> entries);
  get_dev_sector_size_result := λ _, sector_size;
  partition_index_to_path_of := λ device index, device +:+ py_str_int index;
  check_and_generate_key_file_result := Ok (PyStr "/tmp/luks.key");
  unseal_tpm_key_result := Ok (PyStr "/tmp/luks.key");
  check_tpm_compatibility_result := Ok (PyBool true)
|}.

Definition no_failure (cmd : list string) : option exn := None.

Definition failing_program (prog : string) (cmd : list string) : option exn :=
  match cmd with
  | p :: _ => if String.eqb p prog then Some (ProcessExecutionError cmd) else None
  | [] => None
  end.

Definition failing_geometry_query (cmd : list string) : option exn :=
  match cmd with
  | _ :: option :: _ =>
      if String.eqb option "-i" then Some (ProcessExecutionError cmd) else None
  | _ => None
  end.

(** Partitions 1 to 3 of [/dev/sdX], the second one being the root. *)
Definition sdx_entries : list disk_entry :=
  [DiskEntry 1 guid_efi "2048" "1050623";
   DiskEntry 2 root_typecode "1050624" "42993663";
   DiskEntry 3 guid_linux "42993664" "44040191"].

(** The same disk with a second root partition at index 3. *)
Definition two_roots_entries : list disk_entry :=
  [DiskEntry 1 guid_efi "2048" "1050623";
   DiskEntry 2 root_typecode "1050624" "42993663";
   DiskEntry 3 root_typecode "42993664" "44040191"].

(** A disk without root partition. *)
Definition data_entries : list disk_entry :=
  [DiskEntry 1 guid_efi "2048" "1050623";
   DiskEntry 2 guid_linux "1050624" "42993663"].

Definition sdx_env : Env := scenario_env sdx_entries no_failure (Ok 512%N).

Definition sdx_root_info : dict :=
  <["device" := PyStr "/dev/sdX"]> (root_info "/dev/sdX2" (Partition 2)).

(** *** More vocabulary and machines *)

(** The command that rewrites a partition-table entry. *)
Definition is_rewrite_call (ev : event) : bool :=
  match ev with
  | EvExecute (prog :: option :: _) =>
      String.eqb prog "sgdisk" && String.eqb option "-e"
  | _ => false
  end.

Definition is_log_record (ev : event) : bool :=
  match ev with
  | EvLog _ _ _ => true
  | _ => false
  end.

Definition encrypt_failure_record (partition : pyval) : event :=
  EvLog LogError "ERROR: Encryption has failed for %(partition)s"
    (LogSet [PyStr "partition"; partition]).

Definition reencrypt_failure_record (partition : pyval) : event :=
  EvLog LogError "ERROR: Re-encryption has failed for %(partition)s"
    (LogSet [PyStr "partition"; partition]).

Definition parent_failure_record (partition : pyval) : event :=
  EvLog LogError
    "ERROR: Can't determine the parent block device of%(partition)s"
    (LogDict [("partition", partition)]).

Definition lsblk_cmd (path_to_partition : pyval) : list string :=
  ["lsblk"; "-no"; "PKNAME"; py_str path_to_partition].

(** The events of a successful [_grow_part]. *)
Definition grow_events (idx_num device : pyval) (first new_last : string)
    : list event :=
  [EvGetDevSectorSize device;
   EvExecute (geometry_cmd idx_num device);
   EvExecute (rewrite_cmd idx_num first new_last device)].

(** The commands with a given option (second word) fail. *)
Definition failing_option (opt : string) (cmd : list string) : option exn :=
  match cmd with
  | _ :: o :: _ =>
      if String.eqb o opt then Some (ProcessExecutionError cmd) else None
  | _ => None
  end.

(** The type-code query of the partition of index [idx] fails. *)
Definition failing_query_of (idx : string) (cmd : list string) : option exn :=
  match cmd with
  | [_; o; i; _] =>
      if String.eqb o "--info" && String.eqb i idx
      then Some (ProcessExecutionError cmd) else None
  | _ => None
  end.

(** A machine on which every command succeeds and prints nothing. *)
Definition silent_env (parts : list partition) : Env := {|
  execute_result := λ _, Ok (EmptyString, EmptyString);
  list_partitions_result := λ _, Ok parts;
  get_dev_sector_size_result := λ _, Ok 512%N;
  partition_index_to_path_of := λ device index, device +:+ py_str_int index;
  check_and_generate_key_file_result := Ok (PyStr "/tmp/luks.key");
  unseal_tpm_key_result := Ok (PyStr "/tmp/luks.key");
  check_tpm_compatibility_result := Ok (PyBool true)
|}.

(** The machine [env] with other answers of the disk and TPM queries. *)
Definition with_listing (env : Env) (listing : res (list partition)) : Env := {|
  execute_result := execute_result env;
  list_partitions_result := λ _, listing;
  get_dev_sector_size_result := get_dev_sector_size_result env;
  partition_index_to_path_of := partition_index_to_path_of env;
  check_and_generate_key_file_result := check_and_generate_key_file_result env;
  unseal_tpm_key_result := unseal_tpm_key_result env;
  check_tpm_compatibility_result := check_tpm_compatibility_result env
|}.

Definition with_key_file (env : Env) (key_file : res pyval) : Env := {|
  execute_result := execute_result env;
  list_partitions_result := list_partitions_result env;
  get_dev_sector_size_result := get_dev_sector_size_result env;
  partition_index_to_path_of := partition_index_to_path_of env;
  check_and_generate_key_file_result := key_file;
  unseal_tpm_key_result := unseal_tpm_key_result env;
  check_tpm_compatibility_result := check_tpm_compatibility_result env
|}.

(** The disk [/dev/sdX] as printed by a tool whose last-sector field is
    not a number. *)
Definition garbled_entries : list disk_entry :=
  [DiskEntry 1 guid_efi "2048" "1050623";
   DiskEntry 2 root_typecode "1050624" "n/a"].

Definition is_cryptsetup_call (ev : event) : bool :=
  match ev with
  | EvExecute (prog :: _) => String.eqb prog "cryptsetup"
  | _ => false
  end.

(** The events of the two steps of an encryption, and the outcome of the
    two steps in sequence with its log record on failure. *)
Definition two_step_outcome (env : Env) (primary secondary : list string)
    (failure_record : event) : res unit * list event :=
  match execute_result env primary with
  | Raise e => (Raise e, [EvExecute primary; failure_record])
  | Ok _ =>
      match execute_result env secondary with
      | Raise e =>
          (Raise e, [EvExecute primary; EvExecute secondary; failure_record])
      | Ok _ => (Ok (), [EvExecute primary; EvExecute secondary])
      end
  end.

(** *** Ascending index order *)

(** The partitions of a listing in ascending index order, and the last
    root partition met when scanning in that order, as the specification
    words the scan. *)
Fixpoint insert_by_number (p : partition) (l : list partition)
    : list partition :=
  match l with
  | [] => [p]
  | q :: l' =>
      if number p <=? number q then p :: l else q :: insert_by_number p l'
  end.

Definition ascending (parts : list partition) : list partition :=
  foldr insert_by_number [] parts.

Definition last_root_ascending (env : Env) (disk : string)
    (parts : list partition) : option partition :=
  last (List.filter (is_root env disk) (ascending parts)).

(** The disk [/dev/sdX] with root partitions at indices 2 and 3, listed
    in the order 1, 3, 2. *)
Definition unordered_entries : list disk_entry :=
  [DiskEntry 1 guid_efi "2048" "1050623";
   DiskEntry 3 root_typecode "1050624" "42993663";
   DiskEntry 2 root_typecode "42993664" "44040191"].

Definition unordered_env : Env :=
  scenario_env unordered_entries no_failure (Ok 512%N).

(** * Properties *)

(** ** Unimplemented partition-image workflows *)

(** C1. The claim asks each of the three partition-image workflows to
    fail with a NotImplemented error.  The code does not: on every
    argument each of them writes one error record to the log and returns
    [None] to its caller as an ordinary result. *)
Theorem partition_image_stubs_return_none (partition : pyval) :
  run (partition_image_root_partition_encryption partition)
    = (Ok PyNone, [not_implemented_record])
  ∧ run (partition_image_initrd_customization partition)
    = (Ok PyNone, [not_implemented_record])
  ∧ run (partition_image_open_root_partition partition)
    = (Ok PyNone, [not_implemented_record]).
Proof. by repeat split. Qed.

(** ** Hardware support *)

Lemma detect_dependency_is_function_object st :
  _detect_dependency st = (Ok (PyFunction "tpm.check_tpm_compatibility"), st).
Proof. reflexivity. Qed.

(** C2. The claim asks for MAINLINE exactly when both compatibility
    checks report true.  The code never calls the checks: it tests the
    function objects, which are always true.  On a machine whose TPM check
    reports false the claimed result is NONE and the code answers
    MAINLINE. *)
Theorem hardware_support_ignores_tpm_check :
  check_tpm_compatibility_result env_without_tpm = Ok (PyBool false)
  ∧ (run (evaluate_hardware_support_claimed env_without_tpm)).1 = Ok NONE
  ∧ (run evaluate_hardware_support).1 = Ok MAINLINE.
Proof. by repeat split. Qed.

(** ** Header sectors *)

Lemma header_sectors_quotient (s : Z) :
  0 < s → luks_header_sectors s = Ok (32 * 1024 * 1024 / s).
Proof.
  intros Hs. unfold luks_header_sectors.
  destruct (Z.eqb_spec s 0) as [->|_]; [lia|].
  by rewrite Z.quot_div_nonneg by lia.
Qed.


Lemma ceiling_above_quotient (a s : Z) :
  0 < s → 0 ≤ a → ((a + s - 1) / s = a / s ↔ (s | a)).
Proof.
  intros Hs Ha. split.
  - intros Heq. apply Z.mod_divide; [lia|].
    pose proof (Z.div_mod a s ltac:(lia)) as Hdm.
    pose proof (Z.mod_pos_bound a s Hs) as Hr.
    destruct (Z.eq_dec (a mod s) 0) as [|Hne]; [done|exfalso].
    assert ((a + s - 1) / s = a / s + 1) as Hc.
    { symmetry. apply (Z.div_unique_pos _ _ _ (a mod s - 1)); lia. }
    lia.
  - intros [k ->]. rewrite Z.div_mul by lia.
    symmetry. apply (Z.div_unique_pos _ _ _ (s - 1)); lia.
Qed.

(** On every sector size from 1 to 4096 the computation on IEEE doubles,
    as Python performs it, gives the integer quotient. *)
Lemma header_sectors_float_agrees (s : Z) :
  1 ≤ s ≤ 4096 → luks_header_sectors_float s = luks_header_sectors s.
Proof.
  assert (∀ count from, header_models_agree count from = true →
            ∀ k, from ≤ k < from + Z.of_nat count →
                 same_sectors (luks_header_sectors_float k)
                              (luks_header_sectors k) = true) as Hsound.
  { induction count as [|count IH]; intros from Hall k Hk; [lia|].
    cbn [header_models_agree] in Hall.
    apply andb_true_iff in Hall as [Hhere Hrest].
    destruct (Z.eq_dec k from) as [->|Hne]; [exact Hhere|].
    apply (IH (from + 1)); [exact Hrest|lia]. }
  intros Hs.
  assert (header_models_agree 4096 1 = true) as Hall by (vm_compute; reflexivity).
  assert (1 ≤ s < 1 + Z.of_nat 4096) as Hrange.
  { replace (Z.of_nat 4096) with 4096 by (vm_compute; reflexivity). lia. }
  pose proof (Hsound _ _ Hall s Hrange) as Hsame.
  unfold same_sectors in Hsame.
  destruct (luks_header_sectors_float s), (luks_header_sectors s);
    try discriminate Hsame.
  apply Z.eqb_eq in Hsame. by subst.
Qed.

Example header_sectors_float_520 : luks_header_sectors_float 520 = Ok 64527.
Proof. vm_compute. reflexivity. Qed.

(** C3, as the claim states it, fails: at a sector size of 520 bytes the
    code computes 64527 sectors, one less than the ceiling 64528. *)
Lemma header_sectors_520_not_ceiling :
  luks_header_sectors 520 = Ok 64527
  ∧ header_sectors_ceiling 520 = 64528
  ∧ luks_header_sectors 520 ≠ Ok (header_sectors_ceiling 520).
Proof.
  split; [vm_compute; reflexivity|].
  split; [vm_compute; reflexivity|].
  vm_compute. discriminate.
Qed.

(** C3, amended.  For every positive sector size the number of header
    sectors is the integer quotient (floor) of 32 MiB by the sector size;
    it is the ceiling exactly when the sector size divides 32 MiB.  For
    512 bytes it is 65536 sectors and for 4096 bytes 8192 sectors. *)
Theorem header_sectors_is_floor (s : Z) :
  0 < s →
  luks_header_sectors s = Ok (32 * 1024 * 1024 / s)
  ∧ (luks_header_sectors s = Ok (header_sectors_ceiling s)
     ↔ (s | 32 * 1024 * 1024))
  ∧ luks_header_sectors 512 = Ok 65536
  ∧ luks_header_sectors 4096 = Ok 8192.
Proof.
  intros Hs. rewrite header_sectors_quotient by exact Hs.
  split; [reflexivity|].
  split; [|split; vm_compute; reflexivity].
  unfold header_sectors_ceiling.
  rewrite <- (ceiling_above_quotient (32 * 1024 * 1024) s) by lia.
  split; [intros [= Heq]; by rewrite Heq|intros Heq; by rewrite Heq].
Qed.

Lemma header_sectors_is_floor_witness :
  0 < 4096
  ∧ luks_header_sectors 4096 = Ok (32 * 1024 * 1024 / 4096)
  ∧ (luks_header_sectors 4096 = Ok (header_sectors_ceiling 4096)
     ↔ (4096 | 32 * 1024 * 1024))
  ∧ luks_header_sectors 512 = Ok 65536
  ∧ luks_header_sectors 4096 = Ok 8192.
Proof. split; [reflexivity | apply (header_sectors_is_floor 4096); reflexivity]. Defined.

(** ** Steps of the monad *)

Section Steps.
Context (env : Env).

Lemma execute_eq cmd st :
  execute env cmd st
  = (execute_result env (py_str <$> cmd),
     record_events st [EvExecute (py_str <$> cmd)]).
Proof. reflexivity. Qed.

Lemma bind_eq {A B} (m : M A) (f : A → M B) st :
  (m ≫= f) st
  = match m st with
    | (Ok a, st') => f a st'
    | (Raise e, st') => (Raise e, st')
    end.
Proof. reflexivity. Qed.

Lemma bind_ok_inv {A B} (m : M A) (f : A → M B) st b st' :
  (m ≫= f) st = (Ok b, st') →
  ∃ a st1, m st = (Ok a, st1) ∧ f a st1 = (Ok b, st').
Proof.
  rewrite bind_eq. destruct (m st) as [[a|e] st1]; [eauto|discriminate].
Qed.

Lemma lift_ok_inv {A} (r : res A) st a st' :
  lift r st = (Ok a, st') → r = Ok a ∧ st' = st.
Proof. unfold lift. by intros [= -> ->]. Qed.

Lemma try_reraise_ok_inv {A} (body : M A) (block : exn → M unit) st a st' :
  try_except body (λ e, save_and_reraise_exception e (block e)) st = (Ok a, st') →
  body st = (Ok a, st').
Proof.
  unfold try_except, save_and_reraise_exception.
  destruct (body st) as [[a'|e] st1]; [done|].
  destruct (block e st1) as [[[]|e'] st2]; discriminate.
Qed.

Lemma record_events_app st evs evs' :
  record_events (record_events st evs) evs' = record_events st (evs ++ evs').
Proof. unfold record_events. cbn. by rewrite <- app_assoc. Qed.

Lemma record_events_nil st : record_events st [] = st.
Proof. destruct st. unfold record_events. cbn. by rewrite app_nil_r. Qed.

End Steps.

(** ** Encryption driver *)

(** Unfolding of the monad, and case analysis on the answer of the next
    external command. *)
Ltac unfold_monad :=
  unfold run, call, try_except, save_and_reraise_exception, log, emit, raise,
    lift, set_local, get_local, execute, list_partitions, get_dev_sector_size,
    partition_index_to_path, check_and_generate_key_file, unseal_tpm_key,
    mbind, M_bind, mret, M_ret, res_bind, res_ret.

Ltac case_execute :=
  match goal with
  | |- context [match execute_result ?env ?c with _ => _ end] =>
      destruct (execute_result env c) eqn:?
  end.

(** C6. In [luks_encrypt_devcie_partition] and in
    [luks_re_encrypt_partition] the primary [cryptsetup] step is the first
    event, and a [luksAddKey] call follows it exactly when the primary
    step succeeded; the result is that of the two steps in sequence, so a
    failure of the primary step is the failure of the whole call and no
    secondary-slot call occurs. *)
Theorem add_key_only_after_primary (env : Env) (key_file partition : pyval) :
  (∃ rest,
      (run (luks_encrypt_devcie_partition env key_file partition)).2
        = EvExecute (encrypt_cmd key_file partition) :: rest
      ∧ existsb is_add_key_call rest
        = is_ok (execute_result env (encrypt_cmd key_file partition))
      ∧ (run (luks_encrypt_devcie_partition env key_file partition)).1
        = (execute_result env (encrypt_cmd key_file partition);;
           execute_result env (add_key_cmd key_file partition);;
           Ok ()))
  ∧ (∃ rest,
      (run (luks_re_encrypt_partition env key_file partition)).2
        = EvExecute (reencrypt_cmd key_file partition) :: rest
      ∧ existsb is_add_key_call rest
        = is_ok (execute_result env (reencrypt_cmd key_file partition))
      ∧ (run (luks_re_encrypt_partition env key_file partition)).1
        = (execute_result env (reencrypt_cmd key_file partition);;
           execute_result env (add_key_cmd key_file partition);;
           Ok ())).
Proof.
  split.
  - unfold luks_encrypt_devcie_partition, encrypt_cmd, add_key_cmd.
    unfold_monad. cbn. repeat case_execute; cbn; eexists; done.
  - unfold luks_re_encrypt_partition, reencrypt_cmd, add_key_cmd.
    unfold_monad. cbn. repeat case_execute; cbn; eexists; done.
Qed.

Lemma luks_open_partition_eq (env : Env) (key_file partition : pyval)
    (map_target : string) st :
  luks_open_partition env key_file partition map_target st
  = match execute_result env (open_cmd key_file partition map_target) with
    | Ok _ =>
        (Ok ("/dev/mapper/" +:+ map_target),
         record_events st
           [EvExecute (open_cmd key_file partition map_target)])
    | Raise e =>
        (Raise e,
         record_events st
           [EvExecute (open_cmd key_file partition map_target);
            open_failure_record partition])
    end.
Proof.
  unfold luks_open_partition, open_cmd, record_events. unfold_monad. cbn.
  case_execute; cbn; [done|]. by rewrite <- app_assoc.
Qed.

(** C8. [luks_open_partition] succeeds exactly when the [cryptsetup open]
    command does, and then returns ['/dev/mapper/'] followed by the mapper
    name, whatever the key file and the partition are.
    [config_drive_open] opens under the mapper name ['config-2'] with the
    unsealed key, and its successful result is ['/dev/mapper/config-2']. *)
Theorem open_returns_mapper_path (env : Env) (key_file partition conf_part : pyval)
    (map_target : string) :
  run (luks_open_partition env key_file partition map_target)
  = match execute_result env (open_cmd key_file partition map_target) with
    | Ok _ =>
        (Ok ("/dev/mapper/" +:+ map_target),
         [EvExecute (open_cmd key_file partition map_target)])
    | Raise e =>
        (Raise e,
         [EvExecute (open_cmd key_file partition map_target);
          open_failure_record partition])
    end
  ∧ run (config_drive_open env conf_part)
    = match unseal_tpm_key_result env with
      | Ok key =>
          match execute_result env (open_cmd key conf_part "config-2") with
          | Ok _ =>
              (Ok "/dev/mapper/config-2",
               [EvUnsealTpmKey; EvExecute (open_cmd key conf_part "config-2")])
          | Raise e =>
              (Raise e,
               [EvUnsealTpmKey; EvExecute (open_cmd key conf_part "config-2");
                open_failure_record conf_part])
          end
      | Raise e => (Raise e, [EvUnsealTpmKey])
      end.
Proof.
  split.
  - unfold run. rewrite luks_open_partition_eq.
    by destruct (execute_result env _).
  - unfold run, config_drive_open. rewrite bind_eq.
    unfold unseal_tpm_key. rewrite bind_eq. unfold emit, lift.
    destruct (unseal_tpm_key_result env) as [key|e]; [|done].
    rewrite luks_open_partition_eq.
    by destruct (execute_result env _).
Qed.

(** ** Root-partition discovery *)

Lemma scan_partition_eq env disk rpi p st :
  scan_partition env disk rpi p st
  = (scan_outcome env disk rpi p,
     record_events st [EvExecute (info_cmd disk p)]).
Proof.
  unfold scan_partition, scan_outcome, typecode_of, info_cmd, path_of,
    root_info, record_events.
  unfold_monad. cbn -[py_str_int splitlines re_split_space root_typecode].
  case_execute; [|done].
  cbn -[py_str_int splitlines re_split_space root_typecode].
  destruct (py_index (splitlines _) 0) as [line|]; [|done].
  destruct (py_index (re_split_space line) 3) as [typecode|]; [|done].
  by destruct (String.eqb typecode root_typecode).
Qed.

Lemma for_each_scan env disk parts rpi st :
  for_each parts (scan_partition env disk) rpi st
  = ((scan_fold env disk parts rpi).1,
     record_events st (scan_fold env disk parts rpi).2).
Proof.
  revert rpi st. induction parts as [|p parts IH]; intros rpi st.
  - cbn. by rewrite record_events_nil.
  - cbn [for_each scan_fold]. rewrite bind_eq, scan_partition_eq.
    destruct (scan_outcome env disk rpi p) as [info|e]; [|done].
    rewrite IH, record_events_app.
    by destruct (scan_fold env disk parts info).
Qed.
Ltac same_trace :=
  unfold record_events; cbn; rewrite <- ?app_assoc; cbn; done.

Lemma detect_root_partition_eq env disk st :
  detect_root_partition_on_device env disk st
  = match list_partitions_result env disk with
    | Raise e => (Raise e, record_events st [EvListPartitions disk])
    | Ok parts =>
        let '(r, evs) := scan_fold env disk parts None in
        match r with
        | Raise e =>
            (Raise e,
             record_events st
               (EvListPartitions disk :: evs ++ [lookup_failure_record disk]))
        | Ok info =>
            if dict_truthy info then
              match subscript info "partition_path" with
              | Raise e =>
                  (Raise e,
                   record_events st
                     (EvListPartitions disk :: evs
                        ++ [lookup_failure_record disk]))
              | Ok path =>
                  match execute_result env (link_cmd (py_str path)) with
                  | Ok _ =>
                      (Ok info,
                       record_events st
                         (EvListPartitions disk :: evs
                            ++ [EvExecute (link_cmd (py_str path))]))
                  | Raise e =>
                      (Raise e,
                       record_events st
                         (EvListPartitions disk :: evs
                            ++ [EvExecute (link_cmd (py_str path));
                                lookup_failure_record disk]))
                  end
              end
            else
              (Raise (InstanceDeployFailure "ERROR: Can't find typecode match!"),
               record_events st
                 (EvListPartitions disk :: evs ++ [lookup_failure_record disk]))
        end
    end.
Proof.
  unfold detect_root_partition_on_device.
  rewrite bind_eq. unfold list_partitions at 1. rewrite bind_eq.
  unfold emit at 1, lift at 1.
  destruct (list_partitions_result env disk) as [parts|e]; [|done].
  unfold try_except. rewrite bind_eq, for_each_scan.
  destruct (scan_fold env disk parts None) as [[info|e] evs]; cbn [fst snd].
  - rewrite bind_eq. destruct (dict_truthy info); cbn [negb].
    + unfold mret at 1, M_ret at 1. rewrite bind_eq. unfold lift at 1.
      destruct (subscript info "partition_path") as [path|e].
      * rewrite bind_eq, execute_eq. cbn [fmap list_fmap py_str].
        fold (link_cmd (py_str path)). rewrite !record_events_app.
        destruct (execute_result env (link_cmd (py_str path))); cbn;
          same_trace.
      * unfold save_and_reraise_exception, log, emit. same_trace.
    + unfold raise at 1, save_and_reraise_exception, log, emit. same_trace.
  - unfold save_and_reraise_exception, log, emit. same_trace.
Qed.

Section Scan.
Context (env : Env) (disk : string).

Lemma scan_outcome_readable info q :
  is_ok (typecode_of env disk q) = true →
  scan_outcome env disk info q = Ok (scan_choice env disk info q).
Proof.
  unfold scan_outcome, scan_choice, is_root.
  destruct (typecode_of env disk q) as [typecode|]; [|done].
  intros _. cbn. by destruct (String.eqb typecode root_typecode).
Qed.

Lemma scan_outcome_not_root info q :
  is_root env disk q = false →
  scan_outcome env disk info q = Ok info
  ∨ ∃ e, typecode_of env disk q = Raise e
         ∧ scan_outcome env disk info q = Raise e.
Proof.
  unfold scan_outcome, is_root.
  destruct (typecode_of env disk q) as [typecode|e]; cbn; [|eauto].
  intros ->. by left.
Qed.

Lemma scan_fold_readable parts info :
  forallb (λ q, is_ok (typecode_of env disk q)) parts = true →
  scan_fold env disk parts info
  = (Ok (fold_left (scan_choice env disk) parts info), info_events disk parts).
Proof.
  revert info. induction parts as [|q parts IH]; intros info Hread; [done|].
  cbn in Hread. apply andb_true_iff in Hread as [Hq Hread].
  cbn [scan_fold fold_left]. rewrite scan_outcome_readable by done.
  by rewrite IH.
Qed.

Lemma scan_keeps_without_root parts info :
  forallb (λ q, negb (is_root env disk q)) parts = true →
  fold_left (scan_choice env disk) parts info = info.
Proof.
  revert info. induction parts as [|q parts IH]; intros info Hno; [done|].
  cbn in Hno. apply andb_true_iff in Hno as [Hq Hno].
  cbn [fold_left]. rewrite IH by done.
  unfold scan_choice. by destruct (is_root env disk q).
Qed.

Lemma info_event_quiet q : quiet (EvExecute (info_cmd disk q)) = true.
Proof. reflexivity. Qed.

Lemma scan_fold_without_root parts info :
  forallb (λ q, negb (is_root env disk q)) parts = true →
  ((scan_fold env disk parts info).1 = Ok info
   ∨ ∃ e, (scan_fold env disk parts info).1 = Raise e)
  ∧ forallb quiet (scan_fold env disk parts info).2 = true.
Proof.
  revert info. induction parts as [|q parts IH]; intros info Hno.
  { split; [by left|done]. }
  cbn in Hno. apply andb_true_iff in Hno as [Hq Hno].
  apply negb_true_iff in Hq. cbn [scan_fold].
  destruct (scan_outcome_not_root info q Hq) as [->|(e & _ & ->)].
  - destruct (IH info Hno) as [Hres Hquiet].
    destruct (scan_fold env disk parts info) as [r evs]. cbn [fst snd] in *.
    split; [done|]. cbn [forallb]. by rewrite info_event_quiet.
  - split; [right; by eexists|done].
Qed.

Lemma root_info_truthy path p : dict_truthy (Some (root_info path p)) = true.
Proof.
  unfold dict_truthy, root_info.
  rewrite bool_decide_eq_false_2; [done|]. apply insert_non_empty.
Qed.

Lemma root_info_path path p :
  subscript (Some (root_info path p)) "partition_path" = Ok (PyStr path).
Proof. unfold subscript, dict_get, root_info. by rewrite lookup_insert_eq. Qed.

(** The scan over a listing whose last root partition is [p]. *)
Lemma scan_selects_last_root before p after :
  is_root env disk p = true →
  forallb (λ q, negb (is_root env disk q)) after = true →
  fold_left (scan_choice env disk) (before ++ p :: after) None
  = Some (root_info (path_of env disk p) p).
Proof.
  intros Hp Hafter. rewrite fold_left_app. cbn [fold_left].
  rewrite scan_keeps_without_root by done.
  unfold scan_choice at 1. by rewrite Hp.
Qed.

End Scan.

(** C4, as the claim states it, fails: the scan follows the order in
    which [disk_utils.list_partitions] lists the partitions and does not
    sort them by index.  On a disk listed in the order 1, 3, 2 with root
    partitions at indices 2 and 3, the last match in ascending index order
    is partition 3, and the code queries 1, 3, 2 and returns partition
    2. *)
Lemma detect_follows_listing_not_index :
  list_partitions_result unordered_env "/dev/sdX"
  = Ok [Partition 1; Partition 3; Partition 2]
  ∧ last_root_ascending unordered_env "/dev/sdX"
      [Partition 1; Partition 3; Partition 2]
    = Some (Partition 3)
  ∧ run (detect_root_partition_on_device unordered_env "/dev/sdX")
    = (Ok (Some (root_info "/dev/sdX2" (Partition 2))),
       [EvListPartitions "/dev/sdX";
        EvExecute ["sgdisk"; "--info"; "1"; "/dev/sdX"];
        EvExecute ["sgdisk"; "--info"; "3"; "/dev/sdX"];
        EvExecute ["sgdisk"; "--info"; "2"; "/dev/sdX"];
        EvExecute ["ln"; "-s"; "/dev/sdX2"; "/tmp/root_partition"]])
  ∧ (run (detect_root_partition_on_device unordered_env "/dev/sdX")).1
    ≠ Ok (Some (root_info "/dev/sdX3" (Partition 3))).
Proof.
  split; [reflexivity|].
  split; [vm_compute; reflexivity|].
  split; [vm_compute; reflexivity|].
  assert (run (detect_root_partition_on_device unordered_env "/dev/sdX")
          = (Ok (Some (root_info "/dev/sdX2" (Partition 2))),
             [EvListPartitions "/dev/sdX";
              EvExecute ["sgdisk"; "--info"; "1"; "/dev/sdX"];
              EvExecute ["sgdisk"; "--info"; "3"; "/dev/sdX"];
              EvExecute ["sgdisk"; "--info"; "2"; "/dev/sdX"];
              EvExecute ["ln"; "-s"; "/dev/sdX2"; "/tmp/root_partition"]]))
    as -> by (vm_compute; reflexivity).
  cbn [fst]. intros Heq.
  apply (f_equal (λ r : res (option dict),
                    match r with
                    | Ok (Some d) => d !! "index_number"
                    | _ => None
                    end)) in Heq.
  vm_compute in Heq. discriminate Heq.
Qed.

(** C4, amended.  On a disk whose listing is [before ++ p :: after],
    where every type code can be read, [p] bears the root type code and no
    partition listed after [p] does, and the link can be created,
    [detect_root_partition_on_device] queries the partitions in the order
    of the listing and returns the path and the index of [p], the last
    match in that order.  When exactly one partition matches, that
    partition is [p].  When the listing is in ascending index order, [p]
    is the match of greatest index. *)
Theorem detect_returns_last_root (env : Env) (disk : string)
    (before after : list partition) (p : partition) :
  list_partitions_result env disk = Ok (before ++ p :: after) →
  forallb (λ q, is_ok (typecode_of env disk q)) (before ++ p :: after) = true →
  is_root env disk p = true →
  forallb (λ q, negb (is_root env disk q)) after = true →
  is_ok (execute_result env (link_cmd (path_of env disk p))) = true →
  run (detect_root_partition_on_device env disk)
  = (Ok (Some (root_info (path_of env disk p) p)),
     EvListPartitions disk :: info_events disk (before ++ p :: after)
       ++ [EvExecute (link_cmd (path_of env disk p))])
  ∧ (∀ q, List.filter (is_root env disk) (before ++ p :: after) = [q] → q = p)
  ∧ (StronglySorted (λ a b, number a < number b) (before ++ p :: after) →
     ∀ q, q ∈ before ++ p :: after → is_root env disk q = true →
          number q ≤ number p).
Proof.
  intros Hlist Hread Hp Hafter Hlink. split_and!.
  - unfold run. rewrite detect_root_partition_eq, Hlist.
    rewrite scan_fold_readable by done.
    rewrite scan_selects_last_root by done.
    rewrite root_info_truthy, root_info_path. cbn [py_str].
    destruct (execute_result env (link_cmd (path_of env disk p))); [done|].
    discriminate Hlink.
  - intros q Hq. rewrite List.filter_app in Hq. cbn [List.filter] in Hq.
    rewrite Hp in Hq.
    assert (List.filter (is_root env disk) after = []) as Hnone.
    { clear -Hafter. induction after as [|a after' IH]; [done|].
      cbn in *. apply andb_true_iff in Hafter as [Ha Hafter].
      apply negb_true_iff in Ha. rewrite Ha. by apply IH. }
    rewrite Hnone in Hq.
    destruct (List.filter (is_root env disk) before) as [|b [|b' rest]];
      cbn in Hq; congruence.
  - intros Hsorted q Hq Hroot.
    apply elem_of_app in Hq as [Hq|Hq].
    + pose proof (StronglySorted_app_1_elem_of _ _ _ q p Hsorted Hq
                    ltac:(left)) as Hlt. cbn beta in Hlt. lia.
    + apply elem_of_cons in Hq as [->|Hq]; [lia|].
      rewrite forallb_forall in Hafter.
      apply list_elem_of_In in Hq. specialize (Hafter q Hq).
      rewrite Hroot in Hafter. discriminate.
Qed.

Lemma detect_without_root (env : Env) (disk : string) (parts : list partition) :
  list_partitions_result env disk = Ok parts →
  forallb (λ q, negb (is_root env disk q)) parts = true →
  ∃ e evs,
    detect_root_partition_on_device env disk (State ∅ [])
    = (Raise e,
       State ∅ (EvListPartitions disk :: evs ++ [lookup_failure_record disk]))
    ∧ forallb quiet evs = true
    ∧ (forallb (λ q, is_ok (typecode_of env disk q)) parts = true →
       e = InstanceDeployFailure "ERROR: Can't find typecode match!").
Proof.
  intros Hlist Hno. rewrite detect_root_partition_eq, Hlist.
  destruct (scan_fold_without_root env disk parts None Hno) as [Hres Hquiet].
  pose proof (scan_fold_readable env disk parts None) as Hread.
  destruct (scan_fold env disk parts None) as [r evs]. cbn [fst snd] in *.
  destruct Hres as [->|[e ->]].
  - cbn. eexists _, evs. split_and!; done.
  - eexists e, evs. split_and!; [done|done|].
    intros Hall. specialize (Hread Hall). discriminate Hread.
Qed.

(** C5. On a disk where no partition bears the root type code,
    [detect_root_partition_on_device] fails, with the error "Can't find
    typecode match!" when every type code could be read; the whole-disk
    workflow fails in the same way with the same events, none of which is
    a geometry call or an encryption call, and the last of which is the
    lookup-failure log record. *)
Theorem no_root_partition_stops_workflow (env : Env) (disk : string)
    (parts : list partition) :
  list_partitions_result env disk = Ok parts →
  forallb (λ q, negb (is_root env disk q)) parts = true →
  ∃ e tr,
    run (detect_root_partition_on_device env disk) = (Raise e, tr)
    ∧ run (whole_disk_image_encryption env disk) = (Raise e, tr)
    ∧ forallb quiet tr = true
    ∧ last tr = Some (lookup_failure_record disk)
    ∧ (forallb (λ q, is_ok (typecode_of env disk q)) parts = true →
       e = InstanceDeployFailure "ERROR: Can't find typecode match!").
Proof.
  intros Hlist Hno.
  destruct (detect_without_root env disk parts Hlist Hno)
    as (e & evs & Hrun & Hquiet & Herr).
  exists e, (EvListPartitions disk :: evs ++ [lookup_failure_record disk]).
  split_and!.
  - unfold run. by rewrite Hrun.
  - unfold run, whole_disk_image_encryption. by rewrite bind_eq, Hrun.
  - cbn [forallb]. rewrite forallb_app, Hquiet. reflexivity.
  - by rewrite app_comm_cons, last_snoc.
  - exact Herr.
Qed.

(** C9. When the root partition [p] was found and the [ln -s] command
    fails with an error [e], [detect_root_partition_on_device] fails with
    [e]: the handler that serves lookup failures logs the same "Can't find
    root partition" record and raises the error again, and no partition is
    returned. *)
Theorem link_failure_fails_detection (env : Env) (disk : string)
    (before after : list partition) (p : partition) (e : exn) :
  list_partitions_result env disk = Ok (before ++ p :: after) →
  forallb (λ q, is_ok (typecode_of env disk q)) (before ++ p :: after) = true →
  is_root env disk p = true →
  forallb (λ q, negb (is_root env disk q)) after = true →
  execute_result env (link_cmd (path_of env disk p)) = Raise e →
  run (detect_root_partition_on_device env disk)
  = (Raise e,
     EvListPartitions disk :: info_events disk (before ++ p :: after)
       ++ [EvExecute (link_cmd (path_of env disk p));
           lookup_failure_record disk]).
Proof.
  intros Hlist Hread Hp Hafter Hlink.
  unfold run. rewrite detect_root_partition_eq, Hlist.
  rewrite scan_fold_readable by done.
  rewrite scan_selects_last_root by done.
  rewrite root_info_truthy, root_info_path. cbn [py_str].
  by rewrite Hlink.
Qed.

(** ** Printing and parsing integers *)

Lemma parse_digits_uint (d : Decimal.uint) (acc : Z) (after_digit : bool) :
  d ≠ Decimal.Nil ∨ after_digit = true →
  parse_digits acc after_digit (NilEmpty.string_of_uint d)
  = Some (uint_value acc d).
Proof.
  revert acc after_digit.
  induction d as [|l IH|l IH|l IH|l IH|l IH|l IH|l IH|l IH|l IH|l IH];
    intros acc after_digit Hd;
    [destruct Hd as [?| ->]; done|..];
    cbn [NilEmpty.string_of_uint parse_digits uint_value];
    (replace (is_digit _) with true by reflexivity);
    cbn [digit_val]; apply IH; by right.
Qed.

Lemma of_uint_acc_value (d : Decimal.uint) (acc : positive) :
  Z.pos (Pos.of_uint_acc d acc) = uint_value (Z.pos acc) d.
Proof.
  revert acc.
  induction d as [|l IH|l IH|l IH|l IH|l IH|l IH|l IH|l IH|l IH|l IH];
    intros acc; cbn [Pos.of_uint_acc uint_value]; [done|..];
    rewrite IH; f_equal; lia.
Qed.

Lemma of_uint_value (d : Decimal.uint) :
  Z.of_N (Pos.of_uint d) = uint_value 0 d.
Proof.
  induction d as [|l IH|l IH|l IH|l IH|l IH|l IH|l IH|l IH|l IH|l IH];
    cbn [Pos.of_uint uint_value Z.of_N]; [done|exact IH|..];
    by rewrite of_uint_acc_value.
Qed.

Lemma rstrip_uint (d : Decimal.uint) :
  rstrip (NilEmpty.string_of_uint d) = NilEmpty.string_of_uint d.
Proof.
  induction d as [|l IH|l IH|l IH|l IH|l IH|l IH|l IH|l IH|l IH|l IH];
    [done|..]; cbn [NilEmpty.string_of_uint rstrip]; rewrite IH;
    by destruct (NilEmpty.string_of_uint l).
Qed.

Lemma py_str_of_int_ok (z : Z) (s : string) :
  py_str_of_int z = Ok s →
  s = py_str_int z ∧ (max_str_digits <? digit_count s)%nat = false.
Proof.
  unfold py_str_of_int.
  destruct (max_str_digits <? digit_count (py_str_int z))%nat eqn:Hlimit;
    [done|].
  by intros [= <-].
Qed.

(** [int(str(z))] is [z], whenever [str(z)] is defined. *)
Lemma py_int_of_str_int (z : Z) (s : string) :
  py_str_of_int z = Ok s → py_int_of_str s = Ok z.
Proof.
  intros [-> Hlimit]%py_str_of_int_ok.
  unfold py_int_of_str. rewrite Hlimit. clear Hlimit. unfold py_str_int.
  destruct z as [|p|p]; [done|..]; cbn [Z.to_int NilEmpty.string_of_int].
  - pose proof (DecimalPos.Unsigned.to_uint_nonnil p) as Hnil.
    pose proof (DecimalPos.Unsigned.of_to p) as Hof.
    apply (f_equal Z.of_N) in Hof. rewrite of_uint_value in Hof.
    assert (lstrip (NilEmpty.string_of_uint (Pos.to_uint p))
            = NilEmpty.string_of_uint (Pos.to_uint p)) as ->.
    { by destruct (Pos.to_uint p). }
    rewrite rstrip_uint.
    pose proof (parse_digits_uint (Pos.to_uint p) 0 false (or_introl Hnil))
      as Hparse.
    destruct (Pos.to_uint p); [done|..]; cbn [NilEmpty.string_of_uint] in *;
      by rewrite Hparse, Hof.
  - pose proof (DecimalPos.Unsigned.to_uint_nonnil p) as Hnil.
    pose proof (DecimalPos.Unsigned.of_to p) as Hof.
    apply (f_equal Z.of_N) in Hof. rewrite of_uint_value in Hof.
    cbn [lstrip]. replace (is_space "-") with false by reflexivity.
    cbn [rstrip]. rewrite rstrip_uint.
    pose proof (parse_digits_uint (Pos.to_uint p) 0 false (or_introl Hnil))
      as Hparse.
    destruct (NilEmpty.string_of_uint (Pos.to_uint p)) eqn:Hs.
    { by destruct (Pos.to_uint p). }
    rewrite Hparse, Hof. done.
Qed.

(** What [int] refuses: a unit separator after the digits, and more than
    4300 digits. *)
Example py_int_rejects_unit_separator :
  py_int_of_str ("200" +:+ String (ascii_of_N 31) EmptyString)
  = Raise ValueError
  ∧ py_int_of_str " 200 " = Ok 200.
Proof. split; vm_compute; reflexivity. Qed.

Lemma py_int_digit_limit (s : string) :
  (max_str_digits < digit_count s)%nat → py_int_of_str s = Raise ValueError.
Proof.
  intros Hlimit%Nat.ltb_lt. unfold py_int_of_str. rewrite Hlimit.
  by destruct (match rstrip (lstrip s) with
               | String "+" r => parse_digits 0 false r
               | String "-" r => Z.opp <$> parse_digits 0 false r
               | r => parse_digits 0 false r
               end).
Qed.

(** ** Partition geometry *)

Ltac cbn_code :=
  cbn -[luks_header_sectors splitlines re_split_space py_int_of_str
        py_str_of_int py_str_int lookup insert empty].

Ltac simpl_locals :=
  repeat (cbn_code;
          first [ rewrite lookup_empty
                | rewrite lookup_insert_eq
                | rewrite lookup_insert_ne by discriminate ]);
  cbn_code.

Ltac close_locals := simpl_locals; rewrite <- ?app_assoc; cbn_code.

(** The whole behaviour of [_grow_part]. *)
Lemma grow_part_eq (env : Env) (partition_info : dict) st :
  let partition := partition_info !! "partition_path" in
  _grow_part env partition_info st
  = match partition_info !! "index_number" with
    | None => grow_failure partition None None (KeyError "index_number") st []
    | Some idx_num =>
    match partition_info !! "device" with
    | None => grow_failure partition None None (KeyError "device") st []
    | Some device =>
    match get_dev_sector_size_result env device with
    | Raise e =>
        grow_failure partition None None e st [EvGetDevSectorSize device]
    | Ok sector_size =>
    match luks_header_sectors (Z.of_N sector_size) with
    | Raise e =>
        grow_failure partition None None e st [EvGetDevSectorSize device]
    | Ok header =>
    let queried :=
      [EvGetDevSectorSize device; EvExecute (geometry_cmd idx_num device)] in
    match execute_result env (geometry_cmd idx_num device) with
    | Raise e => grow_failure partition None None e st queried
    | Ok out =>
    match sector_field out.1 2 with
    | Raise e => grow_failure partition None None e st queried
    | Ok first =>
    match sector_field out.1 3 with
    | Raise e => grow_failure partition (Some (PyStr first)) None e st queried
    | Ok last =>
    match py_int_of_str last with
    | Raise e =>
        grow_failure partition (Some (PyStr first)) (Some (PyStr last)) e st
          queried
    | Ok old_end =>
    match py_str_of_int (old_end + header) with
    | Raise e =>
        grow_failure partition (Some (PyStr first)) (Some (PyStr last)) e st
          queried
    | Ok new_last =>
    match execute_result env (rewrite_cmd idx_num first new_last device) with
    | Raise e =>
        grow_failure partition (Some (PyStr first)) (Some (PyStr new_last)) e st
          (queried ++ [EvExecute (rewrite_cmd idx_num first new_last device)])
    | Ok _ =>
        (Ok (),
         record_events st
           (queried ++ [EvExecute (rewrite_cmd idx_num first new_last device)]))
    end end end end end end end end end end.
Proof.
  intros partition. subst partition.
  unfold _grow_part, sector_field, geometry_cmd, rewrite_cmd, grow_failure,
    grow_handler_outcome, grow_failure_record, record_events.
  unfold_monad. unfold dict_get, py_int.
  destruct (partition_info !! "partition_path") as [partition|].
  all: destruct (partition_info !! "index_number") as [idx_num|];
    [|by close_locals].
  all: destruct (partition_info !! "device") as [device|]; [|by close_locals].
  all: cbn_code.
  all: destruct (get_dev_sector_size_result env device) as [sector_size|e];
    [|by close_locals].
  all: cbn_code.
  all: destruct (luks_header_sectors (Z.of_N sector_size)) as [header|e];
    [|by close_locals].
  all: cbn_code.
  all: case_execute; [|by close_locals].
  all: cbn_code.
  all: destruct (py_index (splitlines _) 2) as [line2|e]; [|by close_locals].
  all: cbn_code.
  all: destruct (py_index (re_split_space line2) 2) as [first|e];
    [|by close_locals].
  all: cbn_code.
  all: destruct (py_index (splitlines _) 3) as [line3|e]; [|by close_locals].
  all: cbn_code.
  all: destruct (py_index (re_split_space line3) 2) as [last|e];
    [|by close_locals].
  all: simpl_locals.
  all: destruct (py_int_of_str last) as [old_end|e]; [|by close_locals].
  all: simpl_locals.
  all: destruct (py_str_of_int _) as [new_last|e]; [|by close_locals].
  all: simpl_locals.
  all: case_execute; by close_locals.
Qed.

Lemma grow_failure_raises partition first last orig st evs a st' :
  grow_failure partition first last orig st evs ≠ (Ok a, st').
Proof.
  unfold grow_failure.
  by destruct (grow_handler_outcome partition first last orig).
Qed.

Lemma run_ok_inv {A} (m : M A) a tr :
  run m = (Ok a, tr) → ∃ st', m (State ∅ []) = (Ok a, st') ∧ trace st' = tr.
Proof.
  unfold run. destruct (m (State ∅ [])) as [r st']. intros [= -> <-]. eauto.
Qed.


(** C10. On a dictionary that has the three keys, when the sector-size
    lookup fails, or when it succeeds and the geometry query of [sgdisk]
    fails, with an error [e], the handler of [_grow_part] reads the local
    [first_sector] while it is unbound: the call ends with an
    [UnboundLocalError] for [first_sector], nothing is logged, and [e] is
    dropped instead of being raised again. *)
Theorem grow_part_error_path_unbound (env : Env) (partition_info : dict)
    (idx_num device partition_path : pyval) (e : exn) (evs : list event) :
  partition_info !! "index_number" = Some idx_num →
  partition_info !! "device" = Some device →
  partition_info !! "partition_path" = Some partition_path →
  (get_dev_sector_size_result env device = Raise e
   ∧ evs = [EvGetDevSectorSize device])
  ∨ (∃ sector_size,
       get_dev_sector_size_result env device = Ok sector_size
       ∧ sector_size ≠ 0%N
       ∧ execute_result env (geometry_cmd idx_num device) = Raise e
       ∧ evs = [EvGetDevSectorSize device;
                EvExecute (geometry_cmd idx_num device)]) →
  run (_grow_part env partition_info)
  = (Raise (UnboundLocalError "first_sector"),
     evs ++ [EvOriginalExceptionDropped e]).
Proof.
  intros Hidx Hdev Hpath Hfail.
  unfold run. rewrite grow_part_eq, Hidx, Hdev, Hpath. cbn zeta.
  destruct Hfail as [[-> ->]|(sector_size & -> & Hnz & Hquery & ->)]; [done|].
  unfold luks_header_sectors.
  destruct (Z.eqb_spec (Z.of_N sector_size) 0) as [|_]; [lia|].
  by rewrite Hquery.
Qed.

(** ** The properties on a concrete disk *)

Lemma detect_returns_last_root_witness :
  run (detect_root_partition_on_device sdx_env "/dev/sdX")
  = (Ok (Some (root_info "/dev/sdX2" (Partition 2))),
     [EvListPartitions "/dev/sdX";
      EvExecute ["sgdisk"; "--info"; "1"; "/dev/sdX"];
      EvExecute ["sgdisk"; "--info"; "2"; "/dev/sdX"];
      EvExecute ["sgdisk"; "--info"; "3"; "/dev/sdX"];
      EvExecute ["ln"; "-s"; "/dev/sdX2"; "/tmp/root_partition"]]).
Proof.
  apply (detect_returns_last_root sdx_env "/dev/sdX"
           [Partition 1] [Partition 3] (Partition 2));
    vm_compute; reflexivity.
Defined.

(** With root partitions at indices 2 and 3, the one at index 3 wins. *)
Example detect_two_roots :
  run (detect_root_partition_on_device
         (scenario_env two_roots_entries no_failure (Ok 512%N)) "/dev/sdX")
  = (Ok (Some (root_info "/dev/sdX3" (Partition 3))),
     [EvListPartitions "/dev/sdX";
      EvExecute ["sgdisk"; "--info"; "1"; "/dev/sdX"];
      EvExecute ["sgdisk"; "--info"; "2"; "/dev/sdX"];
      EvExecute ["sgdisk"; "--info"; "3"; "/dev/sdX"];
      EvExecute ["ln"; "-s"; "/dev/sdX3"; "/tmp/root_partition"]]).
Proof. vm_compute. reflexivity. Qed.

Lemma no_root_partition_stops_workflow_witness :
  ∃ e tr,
    run (detect_root_partition_on_device
           (scenario_env data_entries no_failure (Ok 512%N)) "/dev/sdX")
    = (Raise e, tr)
    ∧ run (whole_disk_image_encryption
             (scenario_env data_entries no_failure (Ok 512%N)) "/dev/sdX")
      = (Raise e, tr)
    ∧ forallb quiet tr = true
    ∧ last tr = Some (lookup_failure_record "/dev/sdX")
    ∧ (forallb
         (λ q, is_ok (typecode_of
                        (scenario_env data_entries no_failure (Ok 512%N))
                        "/dev/sdX" q))
         [Partition 1; Partition 2] = true →
       e = InstanceDeployFailure "ERROR: Can't find typecode match!").
Proof.
  apply (no_root_partition_stops_workflow
           (scenario_env data_entries no_failure (Ok 512%N)) "/dev/sdX"
           [Partition 1; Partition 2]);
    vm_compute; reflexivity.
Defined.

Lemma link_failure_fails_detection_witness :
  run (detect_root_partition_on_device
         (scenario_env sdx_entries (failing_program "ln") (Ok 512%N))
         "/dev/sdX")
  = (Raise (ProcessExecutionError
              ["ln"; "-s"; "/dev/sdX2"; "/tmp/root_partition"]),
     [EvListPartitions "/dev/sdX";
      EvExecute ["sgdisk"; "--info"; "1"; "/dev/sdX"];
      EvExecute ["sgdisk"; "--info"; "2"; "/dev/sdX"];
      EvExecute ["sgdisk"; "--info"; "3"; "/dev/sdX"];
      EvExecute ["ln"; "-s"; "/dev/sdX2"; "/tmp/root_partition"];
      lookup_failure_record "/dev/sdX"]).
Proof.
  apply (link_failure_fails_detection
           (scenario_env sdx_entries (failing_program "ln") (Ok 512%N))
           "/dev/sdX" [Partition 1] [Partition 3] (Partition 2));
    vm_compute; reflexivity.
Defined.


Lemma grow_part_error_path_unbound_witness :
  run (_grow_part
         (scenario_env sdx_entries no_failure
            (Raise (ProcessExecutionError ["blockdev"; "--getss"; "/dev/sdX"])))
         sdx_root_info)
  = (Raise (UnboundLocalError "first_sector"),
     [EvGetDevSectorSize (PyStr "/dev/sdX")]
       ++ [EvOriginalExceptionDropped
             (ProcessExecutionError ["blockdev"; "--getss"; "/dev/sdX"])])
  ∧ run (_grow_part
           (scenario_env sdx_entries failing_geometry_query (Ok 512%N))
           sdx_root_info)
    = (Raise (UnboundLocalError "first_sector"),
       [EvGetDevSectorSize (PyStr "/dev/sdX");
        EvExecute (geometry_cmd (PyInt 2) (PyStr "/dev/sdX"))]
         ++ [EvOriginalExceptionDropped
               (ProcessExecutionError ["sgdisk"; "-i"; "2"; "/dev/sdX"])]).
Proof.
  split.
  - apply (grow_part_error_path_unbound _ sdx_root_info
             (PyInt 2) (PyStr "/dev/sdX") (PyStr "/dev/sdX2"));
      [vm_compute; reflexivity..|].
    left. split; reflexivity.
  - apply (grow_part_error_path_unbound _ sdx_root_info
             (PyInt 2) (PyStr "/dev/sdX") (PyStr "/dev/sdX2"));
      [vm_compute; reflexivity..|].
    right. exists 512%N. split; [reflexivity|].
    split; [discriminate|]. split; [vm_compute; reflexivity|reflexivity].
Defined.

(** The whole-disk workflow on [/dev/sdX], 512-byte sectors: the root
    partition is partition 2, its end moves from sector 42993663 to
    sector 43059199, that is by 65536 sectors, and it is re-encrypted. *)
Example whole_disk_image_encryption_sdx :
  run (whole_disk_image_encryption sdx_env "/dev/sdX")
  = (Ok (),
     [EvListPartitions "/dev/sdX";
      EvExecute ["sgdisk"; "--info"; "1"; "/dev/sdX"];
      EvExecute ["sgdisk"; "--info"; "2"; "/dev/sdX"];
      EvExecute ["sgdisk"; "--info"; "3"; "/dev/sdX"];
      EvExecute ["ln"; "-s"; "/dev/sdX2"; "/tmp/root_partition"];
      EvGetDevSectorSize (PyStr "/dev/sdX");
      EvExecute ["sgdisk"; "-i"; "2"; "/dev/sdX"];
      EvExecute ["sgdisk"; "-e"; "-d"; "2"; "-n"; "2:1050624:43059199";
                 "/dev/sdX"];
      EvCheckAndGenerateKeyFile;
      EvExecute ["cryptsetup"; "reencrypt"; "--encrypt"; "--type"; "luks2";
                 "--reduce-device-size"; "32M"; "--key-file"; "/tmp/luks.key";
                 "/dev/sdX2"];
      EvExecute ["cryptsetup"; "luksAddKey"; "--type"; "luks2"; "--key-file";
                 "/tmp/luks.key"; "/dev/sdX2"; "/tmp/luks.key"]]).
Proof. vm_compute. reflexivity. Qed.

(** * Further properties of the code *)

(** ** Discovery: what a returned result means, and how the scan fails *)

Section ScanInversion.
Context (env : Env) (disk : string).

Lemma scan_fold_quiet parts info :
  forallb quiet (scan_fold env disk parts info).2 = true.
Proof.
  revert info. induction parts as [|q parts IH]; intros info; [done|].
  cbn [scan_fold]. destruct (scan_outcome env disk info q) as [info'|e]; [|done].
  specialize (IH info').
  destruct (scan_fold env disk parts info') as [r evs]. cbn [fst snd] in *.
  cbn [forallb]. by rewrite info_event_quiet.
Qed.

Lemma scan_outcome_ok_inv info q info' :
  scan_outcome env disk info q = Ok info' →
  is_ok (typecode_of env disk q) = true
  ∧ info' = scan_choice env disk info q.
Proof.
  intros Hok. assert (is_ok (typecode_of env disk q) = true) as Hread.
  { unfold scan_outcome in Hok. by destruct (typecode_of env disk q). }
  split; [done|]. rewrite scan_outcome_readable in Hok by done. congruence.
Qed.

Lemma scan_fold_ok_inv parts info r evs :
  scan_fold env disk parts info = (Ok r, evs) →
  forallb (λ q, is_ok (typecode_of env disk q)) parts = true
  ∧ r = fold_left (scan_choice env disk) parts info
  ∧ evs = info_events disk parts.
Proof.
  revert info r evs. induction parts as [|q parts IH]; intros info r evs.
  { cbn. by intros [= <- <-]. }
  cbn [scan_fold].
  destruct (scan_outcome env disk info q) as [info'|e] eqn:Hq; [|done].
  apply scan_outcome_ok_inv in Hq as [Hread ->].
  destruct (scan_fold env disk parts _) as [r' evs'] eqn:Hrest.
  intros [= -> <-]. apply IH in Hrest as (Hreads & -> & ->).
  cbn [forallb fold_left]. by rewrite Hread, Hreads.
Qed.

(** A dictionary left by the scan describes the last root partition. *)
Lemma scan_result_is_last_root parts d :
  fold_left (scan_choice env disk) parts None = Some d →
  ∃ before p after,
    parts = before ++ p :: after
    ∧ is_root env disk p = true
    ∧ forallb (λ q, negb (is_root env disk q)) after = true
    ∧ d = root_info (path_of env disk p) p.
Proof.
  induction parts as [|q parts IH] using rev_ind; [done|].
  rewrite fold_left_app. cbn [fold_left]. unfold scan_choice at 1.
  destruct (is_root env disk q) eqn:Hq.
  - intros [= <-]. by exists parts, q, [].
  - intros (before & p & after & -> & Hp & Hafter & ->)%IH.
    exists before, p, (after ++ [q]). split_and!; try done.
    + by rewrite <- app_assoc.
    + rewrite forallb_app, Hafter. cbn. by rewrite Hq.
Qed.

(** A failing query ends the scan at once. *)
Lemma scan_fold_query_fails before p after info e :
  forallb (λ q, is_ok (typecode_of env disk q)) before = true →
  typecode_of env disk p = Raise e →
  scan_fold env disk (before ++ p :: after) info
  = (Raise e, info_events disk (before ++ [p])).
Proof.
  intros Hread Hp. revert info.
  induction before as [|q before IH]; intros info.
  - cbn [app scan_fold]. unfold scan_outcome. by rewrite Hp.
  - cbn in Hread. apply andb_true_iff in Hread as [Hq Hread].
    cbn [app scan_fold]. rewrite scan_outcome_readable by done.
    by rewrite IH.
Qed.

End ScanInversion.

Lemma quiet_link path : quiet (EvExecute (link_cmd path)) = true.
Proof. reflexivity. Qed.

Lemma detect_ok_inv (env : Env) (disk : string) st r st' :
  detect_root_partition_on_device env disk st = (Ok r, st') →
  ∃ before p after,
    list_partitions_result env disk = Ok (before ++ p :: after)
    ∧ forallb (λ q, is_ok (typecode_of env disk q)) (before ++ p :: after)
      = true
    ∧ is_root env disk p = true
    ∧ forallb (λ q, negb (is_root env disk q)) after = true
    ∧ is_ok (execute_result env (link_cmd (path_of env disk p))) = true
    ∧ r = Some (root_info (path_of env disk p) p)
    ∧ st' = record_events st
              (EvListPartitions disk
                 :: info_events disk (before ++ p :: after)
                 ++ [EvExecute (link_cmd (path_of env disk p))]).
Proof.
  rewrite detect_root_partition_eq.
  destruct (list_partitions_result env disk) as [parts|e]; [|done].
  destruct (scan_fold env disk parts None) as [[info|e] evs] eqn:Hscan; [|done].
  apply scan_fold_ok_inv in Hscan as (Hread & -> & ->).
  destruct (fold_left _ parts None) as [d|] eqn:Hfold; [|done].
  apply scan_result_is_last_root in Hfold
    as (before & p & after & -> & Hp & Hafter & ->).
  rewrite root_info_truthy, root_info_path. cbn [py_str].
  destruct (execute_result env (link_cmd _)) as [out|e] eqn:Hlink; [|done].
  intros [= <- <-]. exists before, p, after. by rewrite Hlink.
Qed.

Lemma detect_events_quiet (env : Env) (disk : string) st r st' :
  detect_root_partition_on_device env disk st = (r, st') →
  ∃ evs, st' = record_events st evs ∧ forallb quiet evs = true.
Proof.
  rewrite detect_root_partition_eq.
  destruct (list_partitions_result env disk) as [parts|e].
  2:{ intros [= <- <-]. by eexists. }
  pose proof (scan_fold_quiet env disk parts None) as Hquiet.
  destruct (scan_fold env disk parts None) as [[info|e] evs]; cbn [snd] in *.
  - destruct (dict_truthy info).
    + destruct (subscript info "partition_path") as [path|e].
      * destruct (execute_result env _); intros [= <- <-]; eexists;
          (split; [done|]); cbn [forallb]; by rewrite forallb_app, Hquiet.
      * intros [= <- <-]. eexists. split; [done|].
        cbn [forallb]. by rewrite forallb_app, Hquiet.
    + intros [= <- <-]. eexists. split; [done|].
      cbn [forallb]. by rewrite forallb_app, Hquiet.
  - intros [= <- <-]. eexists. split; [done|].
    cbn [forallb]. by rewrite forallb_app, Hquiet.
Qed.

(** X1. Whenever [detect_root_partition_on_device] returns, its result is
    never [None]: it is the dictionary with the path and the index of a
    partition [p] of the listing that bears the root type code, no
    partition listed after [p] bears it, every type code was read, and the
    link to its path was created as the last event. *)
Theorem detect_result_is_last_root (env : Env) (disk : string)
    (r : option dict) (tr : list event) :
  run (detect_root_partition_on_device env disk) = (Ok r, tr) →
  ∃ before p after,
    list_partitions_result env disk = Ok (before ++ p :: after)
    ∧ forallb (λ q, is_ok (typecode_of env disk q)) (before ++ p :: after)
      = true
    ∧ is_root env disk p = true
    ∧ forallb (λ q, negb (is_root env disk q)) after = true
    ∧ is_ok (execute_result env (link_cmd (path_of env disk p))) = true
    ∧ r = Some (root_info (path_of env disk p) p)
    ∧ tr = EvListPartitions disk
             :: info_events disk (before ++ p :: after)
             ++ [EvExecute (link_cmd (path_of env disk p))].
Proof.
  intros (st' & Hrun & <-)%run_ok_inv.
  apply detect_ok_inv in Hrun
    as (before & p & after & Hlist & Hread & Hp & Hafter & Hlink & -> & ->).
  exists before, p, after. split_and!; done.
Qed.

Lemma detect_result_is_last_root_witness :
  ∃ before p after,
    list_partitions_result sdx_env "/dev/sdX" = Ok (before ++ p :: after)
    ∧ forallb (λ q, is_ok (typecode_of sdx_env "/dev/sdX" q))
        (before ++ p :: after) = true
    ∧ is_root sdx_env "/dev/sdX" p = true
    ∧ forallb (λ q, negb (is_root sdx_env "/dev/sdX" q)) after = true
    ∧ is_ok (execute_result sdx_env (link_cmd (path_of sdx_env "/dev/sdX" p)))
      = true
    ∧ Some (root_info "/dev/sdX2" (Partition 2))
      = Some (root_info (path_of sdx_env "/dev/sdX" p) p)
    ∧ [EvListPartitions "/dev/sdX";
       EvExecute ["sgdisk"; "--info"; "1"; "/dev/sdX"];
       EvExecute ["sgdisk"; "--info"; "2"; "/dev/sdX"];
       EvExecute ["sgdisk"; "--info"; "3"; "/dev/sdX"];
       EvExecute ["ln"; "-s"; "/dev/sdX2"; "/tmp/root_partition"]]
      = EvListPartitions "/dev/sdX"
          :: info_events "/dev/sdX" (before ++ p :: after)
          ++ [EvExecute (link_cmd (path_of sdx_env "/dev/sdX" p))].
Proof.
  apply (detect_result_is_last_root sdx_env "/dev/sdX").
  vm_compute. reflexivity.
Defined.

(** X2. When the type-code query of a partition [p] fails, the scan stops
    there: the partitions listed after [p] are not queried, no link is
    created, a match found before [p] is given up, and the error of the
    query is logged as a lookup failure and raised again. *)
Theorem detect_stops_at_failed_query (env : Env) (disk : string)
    (before after : list partition) (p : partition) (e : exn) :
  list_partitions_result env disk = Ok (before ++ p :: after) →
  forallb (λ q, is_ok (typecode_of env disk q)) before = true →
  typecode_of env disk p = Raise e →
  run (detect_root_partition_on_device env disk)
  = (Raise e,
     EvListPartitions disk :: info_events disk (before ++ [p])
       ++ [lookup_failure_record disk]).
Proof.
  intros Hlist Hread Hp. unfold run.
  rewrite detect_root_partition_eq, Hlist.
  by rewrite (scan_fold_query_fails env disk before p after None e).
Qed.

Lemma detect_stops_at_failed_query_witness :
  run (detect_root_partition_on_device
         (scenario_env two_roots_entries (failing_query_of "3") (Ok 512%N))
         "/dev/sdX")
  = (Raise (ProcessExecutionError ["sgdisk"; "--info"; "3"; "/dev/sdX"]),
     EvListPartitions "/dev/sdX"
       :: info_events "/dev/sdX" ([Partition 1; Partition 2] ++ [Partition 3])
       ++ [lookup_failure_record "/dev/sdX"]).
Proof.
  apply (detect_stops_at_failed_query
           (scenario_env two_roots_entries (failing_query_of "3") (Ok 512%N))
           "/dev/sdX" [Partition 1; Partition 2] [] (Partition 3));
    vm_compute; reflexivity.
Defined.

(** X3. When [sgdisk --info] succeeds for a partition [p] but prints no
    line at all, or a first line of fewer than four fields, the type code
    cannot be read: the function fails with [IndexError], logged as a
    lookup failure, and the partitions after [p] are not queried. *)
Theorem detect_short_output_is_index_error (env : Env) (disk : string)
    (before after : list partition) (p : partition) (out : string * string) :
  list_partitions_result env disk = Ok (before ++ p :: after) →
  forallb (λ q, is_ok (typecode_of env disk q)) before = true →
  execute_result env (info_cmd disk p) = Ok out →
  splitlines out.1 = []
  ∨ (∃ line rest, splitlines out.1 = line :: rest
                  ∧ (length (re_split_space line) ≤ 3)%nat) →
  run (detect_root_partition_on_device env disk)
  = (Raise IndexError,
     EvListPartitions disk :: info_events disk (before ++ [p])
       ++ [lookup_failure_record disk]).
Proof.
  intros Hlist Hread Hout Hshort.
  assert (typecode_of env disk p = Raise IndexError) as Hp.
  { unfold typecode_of. rewrite Hout. cbn.
    destruct Hshort as [->|(line & rest & -> & Hlen)]; [done|].
    cbn. unfold py_index.
    by rewrite (lookup_ge_None_2 (re_split_space line) 3) by lia. }
  unfold run. rewrite detect_root_partition_eq, Hlist.
  by rewrite (scan_fold_query_fails env disk before p after None IndexError).
Qed.

Lemma detect_short_output_is_index_error_witness :
  run (detect_root_partition_on_device
         (silent_env [Partition 1; Partition 2]) "/dev/sdX")
  = (Raise IndexError,
     EvListPartitions "/dev/sdX" :: info_events "/dev/sdX" ([] ++ [Partition 1])
       ++ [lookup_failure_record "/dev/sdX"]).
Proof.
  apply (detect_short_output_is_index_error
           (silent_env [Partition 1; Partition 2]) "/dev/sdX"
           [] [Partition 2] (Partition 1) (EmptyString, EmptyString));
    [reflexivity..|by left].
Defined.

(** X4. A failure of [disk_utils.list_partitions] is outside the [try]
    block: it reaches the caller as it is, nothing is logged and no
    command is run. *)
Theorem detect_listing_failure_unlogged (env : Env) (disk : string) (e : exn) :
  list_partitions_result env disk = Raise e →
  run (detect_root_partition_on_device env disk)
  = (Raise e, [EvListPartitions disk]).
Proof.
  intros Hlist. unfold run. by rewrite detect_root_partition_eq, Hlist.
Qed.

Lemma detect_listing_failure_unlogged_witness :
  run (detect_root_partition_on_device
         (with_listing sdx_env
            (Raise (ProcessExecutionError ["parted"; "/dev/sdX"])))
         "/dev/sdX")
  = (Raise (ProcessExecutionError ["parted"; "/dev/sdX"]),
     [EvListPartitions "/dev/sdX"]).
Proof.
  apply (detect_listing_failure_unlogged
           (with_listing sdx_env
              (Raise (ProcessExecutionError ["parted"; "/dev/sdX"])))
           "/dev/sdX").
  reflexivity.
Defined.

(** X5. Whatever the environment answers and whether it succeeds or
    fails, [detect_root_partition_on_device] makes no geometry call and no
    encryption call: it only lists, queries type codes, links and logs. *)
Theorem detect_never_changes_disk (env : Env) (disk : string) :
  forallb quiet (run (detect_root_partition_on_device env disk)).2 = true.
Proof.
  unfold run.
  destruct (detect_root_partition_on_device env disk (State ∅ []))
    as [r st'] eqn:Hrun.
  apply detect_events_quiet in Hrun as (evs & -> & Hquiet). done.
Qed.

(** ** Geometry: bounds and error paths of [_grow_part] *)

(** X6. For a positive sector size the header sectors cover at most
    32 MiB and miss 32 MiB by less than one sector: the bytes added to the
    partition never exceed 32 MiB, and fall short of it when the sector
    size does not divide 32 MiB. *)
Theorem header_sectors_reserve_bound (s h : Z) :
  0 < s →
  luks_header_sectors s = Ok h →
  0 ≤ h ∧ h * s ≤ 32 * 1024 * 1024 < (h + 1) * s.
Proof.
  intros Hs. rewrite header_sectors_quotient by done. intros [= <-].
  pose proof (Z.div_mod (32 * 1024 * 1024) s ltac:(lia)) as Hdm.
  pose proof (Z.mod_pos_bound (32 * 1024 * 1024) s Hs) as Hr.
  pose proof (Z.div_pos (32 * 1024 * 1024) s ltac:(lia) Hs). lia.
Qed.

Lemma header_sectors_reserve_bound_witness :
  0 ≤ 64527 ∧ 64527 * 520 ≤ 32 * 1024 * 1024 < (64527 + 1) * 520.
Proof.
  apply (header_sectors_reserve_bound 520 64527);
    [reflexivity|vm_compute; reflexivity].
Defined.

(** X7. A sector size of zero makes the division fail before the
    partition table is read: no [sgdisk] command is run, and the caller
    gets an [UnboundLocalError] for [first_sector] in place of the
    [ZeroDivisionError], which is dropped. *)
Theorem grow_part_zero_sector_size (env : Env) (partition_info : dict)
    (idx_num device partition_path : pyval) :
  partition_info !! "index_number" = Some idx_num →
  partition_info !! "device" = Some device →
  partition_info !! "partition_path" = Some partition_path →
  get_dev_sector_size_result env device = Ok 0%N →
  run (_grow_part env partition_info)
  = (Raise (UnboundLocalError "first_sector"),
     [EvGetDevSectorSize device;
      EvOriginalExceptionDropped ZeroDivisionError]).
Proof.
  intros Hidx Hdev Hpath Hzero.
  unfold run. by rewrite grow_part_eq, Hidx, Hdev, Hpath, Hzero.
Qed.

Lemma grow_part_zero_sector_size_witness :
  run (_grow_part (scenario_env sdx_entries no_failure (Ok 0%N)) sdx_root_info)
  = (Raise (UnboundLocalError "first_sector"),
     [EvGetDevSectorSize (PyStr "/dev/sdX");
      EvOriginalExceptionDropped ZeroDivisionError]).
Proof.
  apply (grow_part_zero_sector_size _ sdx_root_info
           (PyInt 2) (PyStr "/dev/sdX") (PyStr "/dev/sdX2"));
    vm_compute; reflexivity.
Defined.

(** X8. [_grow_part] on a dictionary without ['index_number'] or without
    ['device'] calls nothing outside the module and never reports the
    missing key: the [KeyError] is dropped and the caller gets an
    [UnboundLocalError] for [first_sector], or a [KeyError] for
    ['partition_path'] when that key is missing too.  In particular the
    result of the discovery, which has no ['device'], cannot be passed on
    as it is. *)
Theorem grow_part_missing_key (env : Env) (partition_info : dict) :
  partition_info !! "index_number" = None
  ∨ partition_info !! "device" = None →
  run (_grow_part env partition_info)
  = (Raise match partition_info !! "partition_path" with
            | Some _ => UnboundLocalError "first_sector"
            | None => KeyError "partition_path"
            end,
     [EvOriginalExceptionDropped
        (KeyError match partition_info !! "index_number" with
                  | Some _ => "device"
                  | None => "index_number"
                  end)]).
Proof.
  intros Hmissing. unfold run. rewrite grow_part_eq. cbn zeta.
  destruct (partition_info !! "index_number") as [idx_num|].
  - destruct Hmissing as [? | ->]; [done|].
    by destruct (partition_info !! "partition_path").
  - by destruct (partition_info !! "partition_path").
Qed.

Lemma grow_part_missing_key_witness :
  run (_grow_part sdx_env (root_info "/dev/sdX2" (Partition 2)))
  = (Raise (UnboundLocalError "first_sector"),
     [EvOriginalExceptionDropped (KeyError "device")]).
Proof.
  apply (grow_part_missing_key sdx_env (root_info "/dev/sdX2" (Partition 2))).
  right. vm_compute. reflexivity.
Defined.

(** Every run of [_grow_part]: the events it adds hold no encryption
    call, and hold a rewrite command only when the geometry was read and
    parsed, and then exactly one, built from what was read. *)
Lemma grow_part_events (env : Env) (partition_info : dict) st r st' :
  _grow_part env partition_info st = (r, st') →
  ∃ evs,
    st' = record_events st evs
    ∧ forallb (λ ev, negb (is_encryption_call ev)) evs = true
    ∧ (List.filter is_rewrite_call evs = []
       ∨ ∃ idx_num device sector_size header out first last old_end,
           partition_info !! "index_number" = Some idx_num
           ∧ partition_info !! "device" = Some device
           ∧ get_dev_sector_size_result env device = Ok sector_size
           ∧ luks_header_sectors (Z.of_N sector_size) = Ok header
           ∧ execute_result env (geometry_cmd idx_num device) = Ok out
           ∧ sector_field out.1 2 = Ok first
           ∧ sector_field out.1 3 = Ok last
           ∧ py_int_of_str last = Ok old_end
           ∧ List.filter is_rewrite_call evs
             = [EvExecute (rewrite_cmd idx_num first
                             (py_str_int (old_end + header)) device)]).
Proof.
  rewrite grow_part_eq. cbn zeta. unfold grow_failure, grow_handler_outcome.
  destruct (partition_info !! "partition_path") as [partition|].
  all: destruct (partition_info !! "index_number") as [idx_num|] eqn:Hidx;
    [|intros [= <- <-]; eexists; split_and!; [done|done|by left]].
  all: destruct (partition_info !! "device") as [device|] eqn:Hdev;
    [|intros [= <- <-]; eexists; split_and!; [done|done|by left]].
  all: destruct (get_dev_sector_size_result env device) as [sector_size|?]
    eqn:Hss;
    [|intros [= <- <-]; eexists; split_and!; [done|done|by left]].
  all: destruct (luks_header_sectors _) as [header|?] eqn:Hhdr;
    [|intros [= <- <-]; eexists; split_and!; [done|done|by left]].
  all: destruct (execute_result env (geometry_cmd _ _)) as [out|?] eqn:Hout;
    [|intros [= <- <-]; eexists; split_and!; [done|done|by left]].
  all: destruct (sector_field out.1 2) as [first|?] eqn:Hfirst;
    [|intros [= <- <-]; eexists; split_and!; [done|done|by left]].
  all: destruct (sector_field out.1 3) as [last|?] eqn:Hlast;
    [|intros [= <- <-]; eexists; split_and!; [done|done|by left]].
  all: destruct (py_int_of_str last) as [old_end|?] eqn:Hend;
    [|intros [= <- <-]; eexists; split_and!; [done|done|by left]].
  all: destruct (py_str_of_int (old_end + header)) as [new_last|?] eqn:Hstr;
    [|intros [= <- <-]; eexists; split_and!; [done|done|by left]].
  all: apply py_str_of_int_ok in Hstr as [-> _].
  all: destruct (execute_result env (rewrite_cmd _ _ _ _)) as [?|?];
    intros [= <- <-]; eexists; (split_and!; [done|done|]);
    right; by exists idx_num, device, sector_size, header, out, first, last,
                 old_end.
Qed.

(** X9. In any run of [_grow_part], successful or not, a command that
    rewrites the partition table is issued only after the sector size,
    both sector fields of the geometry query and the number in the
    last-sector field were obtained; and then exactly one is issued, for
    the index, the first sector and the last sector plus header that were
    read. *)
Theorem grow_part_rewrites_only_what_it_read (env : Env)
    (partition_info : dict) :
  existsb is_rewrite_call (run (_grow_part env partition_info)).2 = true →
  ∃ idx_num device sector_size header out first last old_end,
    partition_info !! "index_number" = Some idx_num
    ∧ partition_info !! "device" = Some device
    ∧ get_dev_sector_size_result env device = Ok sector_size
    ∧ luks_header_sectors (Z.of_N sector_size) = Ok header
    ∧ execute_result env (geometry_cmd idx_num device) = Ok out
    ∧ sector_field out.1 2 = Ok first
    ∧ sector_field out.1 3 = Ok last
    ∧ py_int_of_str last = Ok old_end
    ∧ List.filter is_rewrite_call (run (_grow_part env partition_info)).2
      = [EvExecute (rewrite_cmd idx_num first
                      (py_str_int (old_end + header)) device)].
Proof.
  unfold run.
  destruct (_grow_part env partition_info (State ∅ [])) as [r st'] eqn:Hrun.
  apply grow_part_events in Hrun as (evs & -> & _ & Hrewrite).
  cbn [snd record_events trace app].
  destruct Hrewrite as [Hnone|Hone].
  - intros Hsome. apply existsb_exists in Hsome as (ev & Hin & Hev).
    assert (In ev (List.filter is_rewrite_call evs)) as Hf
      by (apply filter_In; done).
    rewrite Hnone in Hf. destruct Hf.
  - intros _. exact Hone.
Qed.

Lemma grow_part_rewrites_only_what_it_read_witness :
  ∃ idx_num device sector_size header out first last old_end,
    sdx_root_info !! "index_number" = Some idx_num
    ∧ sdx_root_info !! "device" = Some device
    ∧ get_dev_sector_size_result
        (scenario_env sdx_entries (failing_option "-e") (Ok 512%N)) device
      = Ok sector_size
    ∧ luks_header_sectors (Z.of_N sector_size) = Ok header
    ∧ execute_result
        (scenario_env sdx_entries (failing_option "-e") (Ok 512%N))
        (geometry_cmd idx_num device) = Ok out
    ∧ sector_field out.1 2 = Ok first
    ∧ sector_field out.1 3 = Ok last
    ∧ py_int_of_str last = Ok old_end
    ∧ List.filter is_rewrite_call
        (run (_grow_part
                (scenario_env sdx_entries (failing_option "-e") (Ok 512%N))
                sdx_root_info)).2
      = [EvExecute (rewrite_cmd idx_num first
                      (py_str_int (old_end + header)) device)].
Proof.
  apply (grow_part_rewrites_only_what_it_read
           (scenario_env sdx_entries (failing_option "-e") (Ok 512%N))
           sdx_root_info).
  vm_compute. reflexivity.
Defined.

(** X10. When both sector fields were read but the last-sector field is
    not a number, nothing is rewritten: the error of the conversion is
    logged with the partition path and both fields as read, and raised
    again as it is. *)
Theorem grow_part_unparsable_last_sector (env : Env) (partition_info : dict)
    (idx_num device partition_path : pyval) (sector_size : N)
    (out : string * string) (first last : string) (e : exn) :
  partition_info !! "index_number" = Some idx_num →
  partition_info !! "device" = Some device →
  partition_info !! "partition_path" = Some partition_path →
  get_dev_sector_size_result env device = Ok sector_size →
  sector_size ≠ 0%N →
  execute_result env (geometry_cmd idx_num device) = Ok out →
  sector_field out.1 2 = Ok first →
  sector_field out.1 3 = Ok last →
  py_int_of_str last = Raise e →
  run (_grow_part env partition_info)
  = (Raise e,
     [EvGetDevSectorSize device;
      EvExecute (geometry_cmd idx_num device);
      grow_failure_record partition_path (PyStr first) (PyStr last)]).
Proof.
  intros Hidx Hdev Hpath Hss Hnz Hout Hfirst Hlast Hint.
  unfold run. rewrite grow_part_eq, Hidx, Hdev, Hpath, Hss. cbn zeta.
  unfold luks_header_sectors.
  destruct (Z.eqb_spec (Z.of_N sector_size) 0) as [|_]; [lia|].
  by rewrite Hout, Hfirst, Hlast, Hint.
Qed.

Lemma grow_part_unparsable_last_sector_witness :
  run (_grow_part (scenario_env garbled_entries no_failure (Ok 512%N))
         sdx_root_info)
  = (Raise ValueError,
     [EvGetDevSectorSize (PyStr "/dev/sdX");
      EvExecute (geometry_cmd (PyInt 2) (PyStr "/dev/sdX"));
      grow_failure_record (PyStr "/dev/sdX2") (PyStr "1050624") (PyStr "n/a")]).
Proof.
  apply (grow_part_unparsable_last_sector
           (scenario_env garbled_entries no_failure (Ok 512%N)) sdx_root_info
           (PyInt 2) (PyStr "/dev/sdX") (PyStr "/dev/sdX2") 512%N
           (sgdisk_info_text root_typecode "1050624" "n/a", EmptyString));
    [vm_compute; reflexivity..|discriminate|vm_compute; reflexivity
    |vm_compute; reflexivity|vm_compute; reflexivity|vm_compute; reflexivity].
Defined.

(** X11. When the geometry was read, the last sector is a number and
    the new last sector can be printed, but the rewrite command itself
    fails, its error is raised again as it is, after one log record that
    names the partition path, the first sector, and as last sector the new
    value that was being written, not the one that was read. *)
Theorem grow_part_rewrite_failure (env : Env) (partition_info : dict)
    (idx_num device partition_path : pyval) (sector_size : N) (header : Z)
    (out : string * string) (first last new_last : string) (old_end : Z)
    (e : exn) :
  partition_info !! "index_number" = Some idx_num →
  partition_info !! "device" = Some device →
  partition_info !! "partition_path" = Some partition_path →
  get_dev_sector_size_result env device = Ok sector_size →
  luks_header_sectors (Z.of_N sector_size) = Ok header →
  execute_result env (geometry_cmd idx_num device) = Ok out →
  sector_field out.1 2 = Ok first →
  sector_field out.1 3 = Ok last →
  py_int_of_str last = Ok old_end →
  py_str_of_int (old_end + header) = Ok new_last →
  execute_result env (rewrite_cmd idx_num first new_last device) = Raise e →
  run (_grow_part env partition_info)
  = (Raise e,
     grow_events idx_num device first new_last
       ++ [grow_failure_record partition_path (PyStr first) (PyStr new_last)])
  ∧ py_int_of_str new_last = Ok (old_end + header).
Proof.
  intros Hidx Hdev Hpath Hss Hhdr Hout Hfirst Hlast Hint Hstr Hrewrite.
  split; [|by apply py_int_of_str_int].
  unfold run. rewrite grow_part_eq, Hidx, Hdev, Hpath, Hss, Hhdr. cbn zeta.
  by rewrite Hout, Hfirst, Hlast, Hint, Hstr, Hrewrite.
Qed.

Lemma grow_part_rewrite_failure_witness :
  run (_grow_part (scenario_env sdx_entries (failing_option "-e") (Ok 512%N))
         sdx_root_info)
  = (Raise (ProcessExecutionError
              ["sgdisk"; "-e"; "-d"; "2"; "-n"; "2:1050624:43059199";
               "/dev/sdX"]),
     grow_events (PyInt 2) (PyStr "/dev/sdX") "1050624" "43059199"
       ++ [grow_failure_record (PyStr "/dev/sdX2") (PyStr "1050624")
             (PyStr "43059199")])
  ∧ py_int_of_str "43059199" = Ok (42993663 + 65536).
Proof.
  apply (grow_part_rewrite_failure
           (scenario_env sdx_entries (failing_option "-e") (Ok 512%N))
           sdx_root_info (PyInt 2) (PyStr "/dev/sdX") (PyStr "/dev/sdX2")
           512%N 65536
           (sgdisk_info_text root_typecode "1050624" "42993663", EmptyString)
           "1050624" "42993663" "43059199" 42993663);
    vm_compute; reflexivity.
Defined.

(** ** Encryption driver: failures and their log records *)

Lemma luks_re_encrypt_partition_eq (env : Env) (key_file partition : pyval) st :
  luks_re_encrypt_partition env key_file partition st
  = let '(r, evs) :=
      two_step_outcome env (reencrypt_cmd key_file partition)
        (add_key_cmd key_file partition) (reencrypt_failure_record partition) in
    (r, record_events st evs).
Proof.
  unfold luks_re_encrypt_partition, two_step_outcome, reencrypt_cmd,
    add_key_cmd, reencrypt_failure_record, record_events.
  unfold_monad. cbn.
  repeat case_execute; cbn; by rewrite <- ?app_assoc.
Qed.

Lemma luks_encrypt_devcie_partition_eq (env : Env) (key_file partition : pyval)
    st :
  luks_encrypt_devcie_partition env key_file partition st
  = let '(r, evs) :=
      two_step_outcome env (encrypt_cmd key_file partition)
        (add_key_cmd key_file partition) (encrypt_failure_record partition) in
    (r, record_events st evs).
Proof.
  unfold luks_encrypt_devcie_partition, two_step_outcome, encrypt_cmd,
    add_key_cmd, encrypt_failure_record, record_events.
  unfold_monad. cbn.
  repeat case_execute; cbn; by rewrite <- ?app_assoc.
Qed.

(** X12. In [luks_encrypt_devcie_partition] and
    [luks_re_encrypt_partition] the error of whichever step fails reaches
    the caller unchanged, after exactly one error record, which is the
    last event; the record is the same whether the primary step or the
    [luksAddKey] step failed, and a [luksAddKey] failure leaves the
    primary step done.  A successful call logs nothing. *)
Theorem luks_failure_logged_once (env : Env) (key_file partition : pyval) :
  run (luks_encrypt_devcie_partition env key_file partition)
  = match execute_result env (encrypt_cmd key_file partition) with
    | Raise e =>
        (Raise e,
         [EvExecute (encrypt_cmd key_file partition);
          encrypt_failure_record partition])
    | Ok _ =>
        match execute_result env (add_key_cmd key_file partition) with
        | Raise e =>
            (Raise e,
             [EvExecute (encrypt_cmd key_file partition);
              EvExecute (add_key_cmd key_file partition);
              encrypt_failure_record partition])
        | Ok _ =>
            (Ok (),
             [EvExecute (encrypt_cmd key_file partition);
              EvExecute (add_key_cmd key_file partition)])
        end
    end
  ∧ run (luks_re_encrypt_partition env key_file partition)
    = match execute_result env (reencrypt_cmd key_file partition) with
      | Raise e =>
          (Raise e,
           [EvExecute (reencrypt_cmd key_file partition);
            reencrypt_failure_record partition])
      | Ok _ =>
          match execute_result env (add_key_cmd key_file partition) with
          | Raise e =>
              (Raise e,
               [EvExecute (reencrypt_cmd key_file partition);
                EvExecute (add_key_cmd key_file partition);
                reencrypt_failure_record partition])
          | Ok _ =>
              (Ok (),
               [EvExecute (reencrypt_cmd key_file partition);
                EvExecute (add_key_cmd key_file partition)])
          end
      end.
Proof.
  split; unfold run.
  - rewrite luks_encrypt_devcie_partition_eq. unfold two_step_outcome.
    destruct (execute_result env (encrypt_cmd _ _)); [|done].
    by destruct (execute_result env (add_key_cmd _ _)).
  - rewrite luks_re_encrypt_partition_eq. unfold two_step_outcome.
    destruct (execute_result env (reencrypt_cmd _ _)); [|done].
    by destruct (execute_result env (add_key_cmd _ _)).
Qed.

(** X13. [_get_partition_parent_device_name] never returns the name of the
    parent device: when [lsblk] succeeds its output is discarded and the
    result is the empty string; when [lsblk] fails the error is logged and
    raised again. *)
Theorem parent_device_name_is_empty (env : Env) (path_to_partition : pyval) :
  run (_get_partition_parent_device_name env path_to_partition)
  = match execute_result env (lsblk_cmd path_to_partition) with
    | Ok _ => (Ok EmptyString, [EvExecute (lsblk_cmd path_to_partition)])
    | Raise e =>
        (Raise e,
         [EvExecute (lsblk_cmd path_to_partition);
          parent_failure_record path_to_partition])
    end.
Proof.
  unfold _get_partition_parent_device_name, lsblk_cmd, parent_failure_record.
  unfold_monad. cbn. by case_execute.
Qed.

(** ** Workflows *)

(** X14. [config_drive_encryption] asks for a new key first and runs no
    command when that fails; with a key it does what
    [luks_re_encrypt_partition] does on the given partition.  It never
    lists partitions, queries or rewrites geometry. *)
Theorem config_drive_encryption_steps (env : Env) (conf_part : pyval) :
  run (config_drive_encryption env conf_part)
  = match check_and_generate_key_file_result env with
    | Raise e => (Raise e, [EvCheckAndGenerateKeyFile])
    | Ok key_file =>
        let '(r, evs) :=
          two_step_outcome env (reencrypt_cmd key_file conf_part)
            (add_key_cmd key_file conf_part)
            (reencrypt_failure_record conf_part) in
        (r, EvCheckAndGenerateKeyFile :: evs)
    end
  ∧ existsb is_geometry_call (run (config_drive_encryption env conf_part)).2
    = false.
Proof.
  assert (run (config_drive_encryption env conf_part)
          = match check_and_generate_key_file_result env with
            | Raise e => (Raise e, [EvCheckAndGenerateKeyFile])
            | Ok key_file =>
                let '(r, evs) :=
                  two_step_outcome env (reencrypt_cmd key_file conf_part)
                    (add_key_cmd key_file conf_part)
                    (reencrypt_failure_record conf_part) in
                (r, EvCheckAndGenerateKeyFile :: evs)
            end) as Hrun.
  { unfold run, config_drive_encryption. rewrite bind_eq.
    unfold check_and_generate_key_file. rewrite bind_eq. unfold emit, lift.
    destruct (check_and_generate_key_file_result env) as [key_file|e]; [|done].
    rewrite luks_re_encrypt_partition_eq.
    by destruct (two_step_outcome env _ _ _). }
  split; [exact Hrun|]. rewrite Hrun.
  destruct (check_and_generate_key_file_result env) as [key_file|e]; [|done].
  unfold two_step_outcome.
  destruct (execute_result env (reencrypt_cmd _ _)); [|done].
  by destruct (execute_result env (add_key_cmd _ _)).
Qed.

Lemma grow_part_ok_inv (env : Env) (partition_info : dict) st st' :
  _grow_part env partition_info st = (Ok (), st') →
  ∃ idx_num device sector_size header out first last old_end,
    partition_info !! "index_number" = Some idx_num
    ∧ partition_info !! "device" = Some device
    ∧ get_dev_sector_size_result env device = Ok sector_size
    ∧ luks_header_sectors (Z.of_N sector_size) = Ok header
    ∧ execute_result env (geometry_cmd idx_num device) = Ok out
    ∧ sector_field out.1 2 = Ok first
    ∧ sector_field out.1 3 = Ok last
    ∧ py_int_of_str last = Ok old_end
    ∧ is_ok (execute_result env
               (rewrite_cmd idx_num first (py_str_int (old_end + header))
                  device)) = true
    ∧ st' = record_events st
              (grow_events idx_num device first
                 (py_str_int (old_end + header))).
Proof.
  rewrite grow_part_eq. cbn zeta.
  destruct (partition_info !! "index_number") as [idx_num|] eqn:Hidx;
    [|by intros ?%grow_failure_raises].
  destruct (partition_info !! "device") as [device|] eqn:Hdev;
    [|by intros ?%grow_failure_raises].
  destruct (get_dev_sector_size_result env device) as [sector_size|?] eqn:Hss;
    [|by intros ?%grow_failure_raises].
  destruct (luks_header_sectors (Z.of_N sector_size)) as [header|?] eqn:Hhdr;
    [|by intros ?%grow_failure_raises].
  destruct (execute_result env (geometry_cmd idx_num device)) as [out|?]
    eqn:Hout;
    [|by intros ?%grow_failure_raises].
  destruct (sector_field out.1 2) as [first|?] eqn:Hfirst;
    [|by intros ?%grow_failure_raises].
  destruct (sector_field out.1 3) as [last|?] eqn:Hlast;
    [|by intros ?%grow_failure_raises].
  destruct (py_int_of_str last) as [old_end|?] eqn:Hend;
    [|by intros ?%grow_failure_raises].
  destruct (py_str_of_int (old_end + header)) as [new_last|?] eqn:Hstr;
    [|by intros ?%grow_failure_raises].
  apply py_str_of_int_ok in Hstr as [-> _].
  destruct (execute_result env (rewrite_cmd _ _ _ _)) as [?|?] eqn:Hrewrite;
    [|by intros ?%grow_failure_raises].
  intros [= <-].
  exists idx_num, device, sector_size, header, out, first, last, old_end.
  rewrite Hrewrite. split_and!; done.
Qed.

(** The dictionary the whole-disk workflow hands to [_grow_part]. *)
Lemma device_info_lookups (disk path : string) (p : partition) :
  let d : dict := <["device" := PyStr disk]> (root_info path p) in
  d !! "index_number" = Some (PyInt (number p))
  ∧ d !! "device" = Some (PyStr disk)
  ∧ d !! "partition_path" = Some (PyStr path).
Proof.
  cbn zeta. unfold root_info. split_and!.
  - rewrite lookup_insert_ne by done. rewrite lookup_insert_ne by done.
    by rewrite lookup_singleton_eq.
  - by rewrite lookup_insert_eq.
  - rewrite lookup_insert_ne by done. by rewrite lookup_insert_eq.
Qed.

Lemma whole_disk_image_encryption_eq (env : Env) (device : string) st :
  whole_disk_image_encryption env device st
  = match detect_root_partition_on_device env device st with
    | (Raise e, st1) => (Raise e, st1)
    | (Ok info, st1) =>
    match dict_setitem info "device" (PyStr device) with
    | Raise e => (Raise e, st1)
    | Ok d =>
    match _grow_part env d st1 with
    | (Raise e, st2) => (Raise e, st2)
    | (Ok _, st2) =>
    match check_and_generate_key_file_result env with
    | Raise e => (Raise e, record_events st2 [EvCheckAndGenerateKeyFile])
    | Ok key_file =>
    match dict_get d "partition_path" with
    | Raise e => (Raise e, record_events st2 [EvCheckAndGenerateKeyFile])
    | Ok partition_path =>
        luks_re_encrypt_partition env key_file partition_path
          (record_events st2 [EvCheckAndGenerateKeyFile])
    end end end end end.
Proof.
  unfold whole_disk_image_encryption. rewrite bind_eq.
  destruct (detect_root_partition_on_device env device st) as [[info|e] st1];
    [|done].
  rewrite bind_eq. unfold lift at 1.
  destruct (dict_setitem info "device" (PyStr device)) as [d|e]; [|done].
  rewrite bind_eq.
  destruct (_grow_part env d st1) as [[[]|e] st2]; [|done].
  rewrite bind_eq. unfold check_and_generate_key_file. rewrite bind_eq.
  unfold emit at 1, lift at 1. fold (record_events st2 [EvCheckAndGenerateKeyFile]).
  destruct (check_and_generate_key_file_result env) as [key_file|e]; [|done].
  rewrite bind_eq. unfold lift at 1.
  by destruct (dict_get d "partition_path").
Qed.

Lemma quiet_not_encryption evs :
  forallb quiet evs = true →
  forallb (λ ev, negb (is_encryption_call ev)) evs = true.
Proof.
  intros Hq. apply forallb_forall. intros ev Hin.
  rewrite forallb_forall in Hq. specialize (Hq ev Hin).
  unfold quiet in Hq. by apply andb_true_iff in Hq as [_ ?].
Qed.

Lemma no_encryption_call_in evs :
  forallb (λ ev, negb (is_encryption_call ev)) evs = true →
  existsb is_encryption_call evs = false.
Proof.
  intros Hall. apply not_true_is_false. intros (ev & Hin & Hev)%existsb_exists.
  rewrite forallb_forall in Hall. specialize (Hall ev Hin).
  by rewrite Hev in Hall.
Qed.

(** X15. Whenever [whole_disk_image_encryption] succeeds, its steps ran
    in this order: the discovery of the last root partition [p] of the
    listing and the link to its path; the geometry query and the rewrite
    of entry [number p] on the device the workflow was given; the
    generation of a key; the re-encryption of the path of [p] with that
    key and the registration of the key in a second slot.  Nothing else
    was called and nothing was logged. *)
Theorem whole_disk_success_steps (env : Env) (disk : string) (tr : list event) :
  run (whole_disk_image_encryption env disk) = (Ok (), tr) →
  ∃ before p after sector_size header out first last old_end key_file,
    list_partitions_result env disk = Ok (before ++ p :: after)
    ∧ is_root env disk p = true
    ∧ forallb (λ q, negb (is_root env disk q)) after = true
    ∧ get_dev_sector_size_result env (PyStr disk) = Ok sector_size
    ∧ luks_header_sectors (Z.of_N sector_size) = Ok header
    ∧ execute_result env (geometry_cmd (PyInt (number p)) (PyStr disk)) = Ok out
    ∧ sector_field out.1 2 = Ok first
    ∧ sector_field out.1 3 = Ok last
    ∧ py_int_of_str last = Ok old_end
    ∧ check_and_generate_key_file_result env = Ok key_file
    ∧ tr = EvListPartitions disk
             :: info_events disk (before ++ p :: after)
             ++ EvExecute (link_cmd (path_of env disk p))
             :: grow_events (PyInt (number p)) (PyStr disk) first
                  (py_str_int (old_end + header))
             ++ [EvCheckAndGenerateKeyFile;
                 EvExecute (reencrypt_cmd key_file (PyStr (path_of env disk p)));
                 EvExecute (add_key_cmd key_file (PyStr (path_of env disk p)))].
Proof.
  intros (st' & Hrun & <-)%run_ok_inv. revert Hrun.
  rewrite whole_disk_image_encryption_eq.
  destruct (detect_root_partition_on_device env disk _) as [[info|?] st1]
    eqn:Hdetect; [|done].
  apply detect_ok_inv in Hdetect
    as (before & p & after & Hlist & _ & Hp & Hafter & _ & -> & ->).
  cbn [dict_setitem].
  destruct (device_info_lookups disk (path_of env disk p) p)
    as (Lidx & Ldev & Lpath).
  destruct (_grow_part env _ _) as [[[]|?] st2] eqn:Hgrow; [|done].
  apply grow_part_ok_inv in Hgrow
    as (idx_num & device & sector_size & header & out & first & last & old_end
        & Hidx & Hdev & Hss & Hhdr & Hout & Hfirst & Hlast & Hend & _ & ->).
  rewrite Lidx in Hidx. rewrite Ldev in Hdev.
  injection Hidx as <-. injection Hdev as <-.
  destruct (check_and_generate_key_file_result env) as [key_file|?] eqn:Hkey;
    [|done].
  unfold dict_get. rewrite Lpath.
  rewrite luks_re_encrypt_partition_eq. unfold two_step_outcome.
  destruct (execute_result env (reencrypt_cmd _ _)); [|done].
  destruct (execute_result env (add_key_cmd _ _)); [|done].
  intros [= <-].
  exists before, p, after, sector_size, header, out, first, last, old_end,
    key_file.
  split_and!; try done.
  rewrite !record_events_app. cbn [record_events trace app].
  by rewrite <- !app_assoc.
Qed.

Lemma whole_disk_success_steps_witness :
  ∃ before p after sector_size header out first last old_end key_file,
    list_partitions_result sdx_env "/dev/sdX" = Ok (before ++ p :: after)
    ∧ is_root sdx_env "/dev/sdX" p = true
    ∧ forallb (λ q, negb (is_root sdx_env "/dev/sdX" q)) after = true
    ∧ get_dev_sector_size_result sdx_env (PyStr "/dev/sdX") = Ok sector_size
    ∧ luks_header_sectors (Z.of_N sector_size) = Ok header
    ∧ execute_result sdx_env (geometry_cmd (PyInt (number p)) (PyStr "/dev/sdX"))
      = Ok out
    ∧ sector_field out.1 2 = Ok first
    ∧ sector_field out.1 3 = Ok last
    ∧ py_int_of_str last = Ok old_end
    ∧ check_and_generate_key_file_result sdx_env = Ok key_file
    ∧ (run (whole_disk_image_encryption sdx_env "/dev/sdX")).2
      = EvListPartitions "/dev/sdX"
          :: info_events "/dev/sdX" (before ++ p :: after)
          ++ EvExecute (link_cmd (path_of sdx_env "/dev/sdX" p))
          :: grow_events (PyInt (number p)) (PyStr "/dev/sdX") first
               (py_str_int (old_end + header))
          ++ [EvCheckAndGenerateKeyFile;
              EvExecute
                (reencrypt_cmd key_file (PyStr (path_of sdx_env "/dev/sdX" p)));
              EvExecute
                (add_key_cmd key_file (PyStr (path_of sdx_env "/dev/sdX" p)))].
Proof.
  apply (whole_disk_success_steps sdx_env "/dev/sdX").
  vm_compute. reflexivity.
Defined.

Lemma grow_events_no_encryption idx_num device first new_last :
  existsb is_encryption_call (grow_events idx_num device first new_last)
  = false.
Proof. reflexivity. Qed.

(** X16. In any run of [whole_disk_image_encryption], a key is asked for
    or [cryptsetup] is called only after a command that rewrote the
    partition table entry has succeeded: every encryption call of the
    trace comes after that command. *)
Theorem whole_disk_encrypts_after_rewrite (env : Env) (disk : string) :
  existsb is_encryption_call (run (whole_disk_image_encryption env disk)).2
  = true →
  ∃ pre cmd post,
    (run (whole_disk_image_encryption env disk)).2
    = pre ++ EvExecute cmd :: post
    ∧ is_rewrite_call (EvExecute cmd) = true
    ∧ is_ok (execute_result env cmd) = true
    ∧ existsb is_encryption_call pre = false.
Proof.
  unfold run. rewrite whole_disk_image_encryption_eq.
  destruct (detect_root_partition_on_device env disk _) as [r1 st1]
    eqn:Hdetect.
  apply detect_events_quiet in Hdetect as (evs1 & -> & Hq1).
  apply quiet_not_encryption, no_encryption_call_in in Hq1.
  destruct r1 as [info|?];
    [|cbn [snd record_events trace app]; by rewrite Hq1].
  destruct (dict_setitem info "device" (PyStr disk)) as [d|?];
    [|cbn [snd record_events trace app]; by rewrite Hq1].
  destruct (_grow_part env d _) as [r2 st2] eqn:Hgrow.
  destruct r2 as [[]|?].
  - apply grow_part_ok_inv in Hgrow
      as (idx_num & device & sector_size & header & out & first & last
          & old_end & _ & _ & _ & _ & _ & _ & _ & _ & Hrewrite & ->).
    intros _.
    exists (evs1 ++ [EvGetDevSectorSize device;
                     EvExecute (geometry_cmd idx_num device)]),
      (rewrite_cmd idx_num first (py_str_int (old_end + header)) device).
    assert (existsb is_encryption_call
              (evs1 ++ [EvGetDevSectorSize device;
                        EvExecute (geometry_cmd idx_num device)]) = false)
      as Hpre by (rewrite existsb_app, Hq1; reflexivity).
    destruct (check_and_generate_key_file_result env) as [key_file|?].
    + destruct (dict_get d "partition_path") as [partition_path|?].
      * rewrite luks_re_encrypt_partition_eq.
        destruct (two_step_outcome env _ _ _) as [r3 evs3].
        exists ([EvCheckAndGenerateKeyFile] ++ evs3). split_and!; try done.
        rewrite !record_events_app. cbn [snd record_events trace app].
        by rewrite <- !app_assoc.
      * exists [EvCheckAndGenerateKeyFile]. split_and!; try done.
        rewrite !record_events_app. cbn [snd record_events trace app].
        by rewrite <- !app_assoc.
    + exists [EvCheckAndGenerateKeyFile]. split_and!; try done.
      rewrite !record_events_app. cbn [snd record_events trace app].
      by rewrite <- !app_assoc.
  - apply grow_part_events in Hgrow as (evs2 & -> & Hq2 & _).
    apply no_encryption_call_in in Hq2.
    rewrite record_events_app. cbn [snd record_events trace app].
    by rewrite existsb_app, Hq1, Hq2.
Qed.

Lemma whole_disk_encrypts_after_rewrite_witness :
  ∃ pre cmd post,
    (run (whole_disk_image_encryption sdx_env "/dev/sdX")).2
    = pre ++ EvExecute cmd :: post
    ∧ is_rewrite_call (EvExecute cmd) = true
    ∧ is_ok (execute_result sdx_env cmd) = true
    ∧ existsb is_encryption_call pre = false.
Proof.
  apply (whole_disk_encrypts_after_rewrite sdx_env "/dev/sdX").
  vm_compute. reflexivity.
Defined.

Lemma key_request_is_encryption_call evs :
  existsb is_encryption_call evs = false →
  ¬ In EvCheckAndGenerateKeyFile evs.
Proof.
  intros Hnone Hin.
  assert (existsb is_encryption_call evs = true) as Hsome
    by (apply existsb_exists; by exists EvCheckAndGenerateKeyFile).
  by rewrite Hnone in Hsome.
Qed.

Lemma quiet_no_cryptsetup evs :
  forallb quiet evs = true → existsb is_cryptsetup_call evs = false.
Proof.
  intros Hq. apply not_true_is_false.
  intros (ev & Hin & Hev)%existsb_exists.
  rewrite forallb_forall in Hq. specialize (Hq ev Hin).
  unfold quiet in Hq. apply andb_true_iff in Hq as [_ Hq].
  destruct ev as [[|prog rest]| | | | | |]; try done.
  cbn in Hev, Hq. by rewrite Hev in Hq.
Qed.

(** X17. When the key cannot be generated, a run of
    [whole_disk_image_encryption] that got as far as asking for it ends
    with that error right after the request: [cryptsetup] is never
    called, while the partition table has already been rewritten and is
    left so. *)
Theorem whole_disk_key_failure (env : Env) (disk : string) (e : exn) :
  check_and_generate_key_file_result env = Raise e →
  In EvCheckAndGenerateKeyFile (run (whole_disk_image_encryption env disk)).2 →
  (run (whole_disk_image_encryption env disk)).1 = Raise e
  ∧ last (run (whole_disk_image_encryption env disk)).2
    = Some EvCheckAndGenerateKeyFile
  ∧ existsb is_cryptsetup_call (run (whole_disk_image_encryption env disk)).2
    = false
  ∧ existsb is_rewrite_call (run (whole_disk_image_encryption env disk)).2
    = true.
Proof.
  intros Hkey. unfold run. rewrite whole_disk_image_encryption_eq.
  destruct (detect_root_partition_on_device env disk _) as [r1 st1]
    eqn:Hdetect.
  apply detect_events_quiet in Hdetect as (evs1 & -> & Hq1).
  pose proof (quiet_no_cryptsetup _ Hq1) as Hc1.
  apply quiet_not_encryption, no_encryption_call_in in Hq1.
  destruct r1 as [info|?].
  2:{ cbn [snd record_events trace app].
      by intros ?%key_request_is_encryption_call. }
  destruct (dict_setitem info "device" (PyStr disk)) as [d|?].
  2:{ cbn [snd record_events trace app].
      by intros ?%key_request_is_encryption_call. }
  destruct (_grow_part env d _) as [r2 st2] eqn:Hgrow.
  destruct r2 as [[]|?].
  - apply grow_part_ok_inv in Hgrow
      as (idx_num & device & sector_size & header & out & first & last
          & old_end & _ & _ & _ & _ & _ & _ & _ & _ & _ & ->).
    rewrite Hkey. intros _.
    rewrite !record_events_app. cbn [fst snd record_events trace].
    split_and!.
    + done.
    + rewrite app_nil_l, !app_assoc. apply last_snoc.
    + rewrite app_nil_l, !existsb_app, Hc1. reflexivity.
    + rewrite app_nil_l, !existsb_app. cbn. by rewrite !orb_true_r.
  - apply grow_part_events in Hgrow as (evs2 & -> & Hq2 & _).
    apply no_encryption_call_in in Hq2.
    rewrite record_events_app. cbn [snd record_events trace app].
    intros Hin. apply key_request_is_encryption_call in Hin; [done|].
    by rewrite existsb_app, Hq1, Hq2.
Qed.

Lemma whole_disk_key_failure_witness :
  (run (whole_disk_image_encryption
          (with_key_file sdx_env (Raise (OtherError "TPM is locked")))
          "/dev/sdX")).1
  = Raise (OtherError "TPM is locked")
  ∧ last (run (whole_disk_image_encryption
                 (with_key_file sdx_env (Raise (OtherError "TPM is locked")))
                 "/dev/sdX")).2
    = Some EvCheckAndGenerateKeyFile
  ∧ existsb is_cryptsetup_call
      (run (whole_disk_image_encryption
              (with_key_file sdx_env (Raise (OtherError "TPM is locked")))
              "/dev/sdX")).2
    = false
  ∧ existsb is_rewrite_call
      (run (whole_disk_image_encryption
              (with_key_file sdx_env (Raise (OtherError "TPM is locked")))
              "/dev/sdX")).2
    = true.
Proof.
  apply (whole_disk_key_failure
           (with_key_file sdx_env (Raise (OtherError "TPM is locked")))
           "/dev/sdX" (OtherError "TPM is locked")).
  - reflexivity.
  - vm_compute. tauto.
Defined.
